(** * Folio: retrieval-then-generation workflow of [server/app.py]

    A shallow embedding of the request pipeline of [server/app.py]:
    the index providers [get_s3_index] and [build_pdf_index], the two
    graph nodes [retrieve] and [generate_answer], the linear workflow
    [rag_graph] and the request handler [get_response].

    Python values that arrive as JSON are kept dynamically typed
    ([pyval]); dictionaries are finite maps.  Code that touches the file
    system, object storage, the index library or the language model is
    written in a state-and-exception monad over a [World] that holds the
    modelled directories and a chronological trace of the calls made to
    the outside.  What those outside calls answer is given by an
    environment [Env]. *)

From Stdlib Require Import ZArith NArith String Ascii List.
From Stdlib.Strings Require Import Byte.
From stdpp Require Import gmap strings list fin_maps pretty.

Local Set Warnings "-register-all".
Local Open Scope string_scope.

(** ** Python values *)

(** Values produced by [request.json].  JSON numbers are modelled by
    integers. *)
Inductive pyval : Type :=
| PNone
| PBool (b : bool)
| PInt (z : Z)
| PStr (s : string)
| PList (l : list pyval)
| PDict (d : gmap string pyval).

(** Exceptions that the modelled code can raise or let through. *)
Inductive exn : Type :=
| KeyError (key : string)
| TypeError
| AttributeError
| ValueError
| BinasciiError
| OSError (what : string)
| ServiceError (what : string).

Inductive result (A : Type) : Type :=
| Ok (a : A)
| Raise (e : exn).
Arguments Ok {A} a.
Arguments Raise {A} e.

(** Python truth value testing ([bool(v)], [if v], [not v]). *)
Definition truthy (v : pyval) : bool :=
  match v with
  | PNone => false
  | PBool b => b
  | PInt z => negb (z =? 0)%Z
  | PStr s => negb (String.eqb s "")
  | PList l => match l with [] => false | _ :: _ => true end
  | PDict d => negb (bool_decide (d = ∅))
  end.

(** [len(v)]: defined on strings, lists and dictionaries only. *)
Definition py_len (v : pyval) : result nat :=
  match v with
  | PStr s => Ok (String.length s)
  | PList l => Ok (length l)
  | PDict d => Ok (size d)
  | _ => Raise TypeError
  end.

Fixpoint chars_of (s : string) : list pyval :=
  match s with
  | EmptyString => []
  | String c s' => PStr (String c EmptyString) :: chars_of s'
  end.

(** [for x in v]: a string yields its characters, a dictionary its
    keys. *)
Definition py_iter (v : pyval) : result (list pyval) :=
  match v with
  | PStr s => Ok (chars_of s)
  | PList l => Ok l
  | PDict d => Ok (PStr <$> (map_to_list d).*1)
  | _ => Raise TypeError
  end.

(** [v[key]] with a string key. *)
Definition subscript (v : pyval) (key : string) : result pyval :=
  match v with
  | PDict d => match d !! key with
               | Some x => Ok x
               | None => Raise (KeyError key)
               end
  | _ => Raise TypeError
  end.

(** [v.get(key, default)]: only dictionaries have the method. *)
Definition py_get (v : pyval) (key : string) (dflt : pyval) : result pyval :=
  match v with
  | PDict d => Ok (match d !! key with Some x => x | None => dflt end)
  | _ => Raise AttributeError
  end.

(** ** The world outside the interpreter *)

Abbreviation bytes := (list byte).
Abbreviation directory := (gmap string bytes).

(** Calls that leave the process or touch the disk, and the entries
    into the nodes of the workflow, in the order they are made. *)
Inductive Event : Type :=
| EvMkdtemp (dir : string)
| EvOpen (path : string)
| EvWrite (path : string) (data : bytes)
| EvReadDir (dir : string)
| EvRmtree (dir : string)
| EvLoadSnapshot (dir : string)
| EvS3Fetch
| EvBuildIndex
| EvPersist (dir : string)
| EvQuery (question : pyval)
| EvComplete (prompt : string)
| EvNode (name : string).

(** The modelled directories (the snapshot directory and the temporary
    directories, each a flat map from file name to content), the number
    of temporary directories requested so far, and the trace. *)
Record World : Type := mkWorld {
  dirs : gmap string directory;
  tmp_counter : nat;
  trace : list Event
}.

Definition emit_in (ev : Event) (w : World) : World :=
  mkWorld (dirs w) (tmp_counter w) (trace w ++ [ev]).

Definition set_dirs (ds : gmap string directory) (w : World) : World :=
  mkWorld ds (tmp_counter w) (trace w).

(** What the libraries and services answer.  [Document], [Index] and
    [QueryEngine] are the index library's types; to this program they
    are opaque. *)
Record Env : Type := mkEnv {
  Document : Type;
  Index : Type;
  QueryEngine : Type;
  (** [BASE_DIR / "storage"] *)
  STORAGE_DIR : string;
  (** the name [tempfile.mkdtemp] picks on its n-th call *)
  tmp_candidate : nat -> result string;
  (** whether the operating system lets [shutil.rmtree] delete the tree *)
  rmtree_ok : string -> bool;
  (** the operating system's verdict on opening the path for writing *)
  fs_open : string -> result unit;
  (** the operating system's verdict on writing the data to the path *)
  fs_write : string -> bytes -> result unit;
  (** [base64.b64decode] *)
  b64decode : pyval -> result bytes;
  (** [str] of a value that is not a string *)
  str_of : pyval -> string;
  (** [S3Reader(...).load_data()] *)
  s3_load_data : result (list Document);
  (** [SimpleDirectoryReader(dir, required_exts=[".pdf"]).load_data()] *)
  dir_load_data : directory -> result (list Document);
  (** [VectorStoreIndex.from_documents] *)
  from_documents : list Document -> result Index;
  (** the files [index.storage_context.persist] writes *)
  persist_files : Index -> result directory;
  (** [load_index_from_storage] on the files of the snapshot directory *)
  load_index_from_storage : directory -> result Index;
  (** [index.as_query_engine(similarity_top_k=k)] *)
  as_query_engine : Index -> nat -> result QueryEngine;
  (** [qe.query(q)], rendered by [str] as the f-string does *)
  query : QueryEngine -> pyval -> result string;
  (** [str(llm.complete(prompt))] *)
  complete : string -> result string
}.

(** ** The state-and-exception monad *)

Definition M (A : Type) : Type := World -> result A * World.

Definition ret {A} (a : A) : M A := fun w => (Ok a, w).

Definition raise {A} (e : exn) : M A := fun w => (Raise e, w).

Definition bind {A B} (m : M A) (k : A -> M B) : M B :=
  fun w => match m w with
           | (Ok a, w') => k a w'
           | (Raise e, w') => (Raise e, w')
           end.

Definition lift {A} (r : result A) : M A := fun w => (r, w).

Definition emit (ev : Event) : M unit := fun w => (Ok tt, emit_in ev w).

(** [try: body finally: cleanup].  The cleanup runs on both exits; an
    exception of the cleanup replaces the outcome of the body. *)
Definition try_finally {A} (body : M A) (cleanup : M unit) : M A :=
  fun w => match body w with
           | (r, w') => match cleanup w' with
                        | (Ok _, w'') => (r, w'')
                        | (Raise e, w'') => (Raise e, w'')
                        end
           end.

Declare Scope py_scope.
Delimit Scope py_scope with py.
Notation "'let*' x ':=' m 'in' k" := (bind m (fun x => k))
  (at level 10, x name, m at level 100, k at level 200) : py_scope.
Notation "m ';;' k" := (bind m (fun _ => k))
  (at level 100, k at level 200, right associativity) : py_scope.
Local Open Scope py_scope.

(** ** String helpers *)

Definition NL : string := String "010"%char EmptyString.

(** [sep.join(parts)] *)
Definition join (sep : string) (parts : list string) : string :=
  String.concat sep parts.

Fixpoint contains_char (c : ascii) (s : string) : bool :=
  match s with
  | EmptyString => false
  | String c' s' => if Ascii.eqb c c' then true else contains_char c s'
  end.

Fixpoint last_char (dflt : ascii) (s : string) : ascii :=
  match s with
  | EmptyString => dflt
  | String c s' => last_char c s'
  end.

(** [os.path.join(a, b)] on POSIX for two components. *)
Definition path_join (a b : string) : string :=
  match b with
  | String "/"%char _ => b
  | _ => if String.eqb a "" || Ascii.eqb (last_char "x"%char a) "/"%char
         then a +:+ b
         else a +:+ "/" +:+ b
  end.

(** A name that denotes a file directly inside the directory it is
    joined to. *)
Definition plain_name (name : string) : bool :=
  negb (String.eqb name "") && negb (String.eqb name ".")
  && negb (String.eqb name "..") && negb (contains_char "/"%char name)
  && negb (contains_char "000"%char name).

(** ** The program *)

Section Program.

Context (E : Env).

(** *** File-system calls *)

(** [tempfile.mkdtemp()]: a new, empty directory.  A name that is
    already taken is refused. *)
Definition mkdtemp : M string :=
  fun w =>
    match tmp_candidate E (tmp_counter w) with
    | Raise e => (Raise e, w)
    | Ok d =>
        match dirs w !! d with
        | Some _ => (Raise (OSError "FileExistsError"), w)
        | None =>
            (Ok d, mkWorld (<[d := ∅]> (dirs w)) (S (tmp_counter w))
                           (trace w ++ [EvMkdtemp d]))
        end
    end.

(** [open(path_join dir name, 'wb')]: creates or truncates the file.
    Only a file directly inside a modelled directory is tracked. *)
Definition open_wb (dir name : string) : M unit :=
  emit (EvOpen (path_join dir name));;
  lift (fs_open E (path_join dir name));;
  if plain_name name then
    fun w =>
      match dirs w !! dir with
      | Some files => (Ok tt, set_dirs (<[dir := <[name := []]> files]> (dirs w)) w)
      | None => (Raise (OSError "FileNotFoundError"), w)
      end
  else ret tt.

(** [f.write(data)] on the file opened by [open_wb dir name]. *)
Definition write_file (dir name : string) (data : bytes) : M unit :=
  emit (EvWrite (path_join dir name) data);;
  lift (fs_write E (path_join dir name) data);;
  if plain_name name then
    fun w =>
      match dirs w !! dir with
      | Some files => (Ok tt, set_dirs (<[dir := <[name := data]> files]> (dirs w)) w)
      | None => (Ok tt, w)
      end
  else ret tt.

(** [shutil.rmtree(dir, ignore_errors=True)]: never raises. *)
Definition rmtree_ignore_errors (dir : string) : M unit :=
  emit (EvRmtree dir);;
  if rmtree_ok E dir
  then fun w => (Ok tt, set_dirs (delete dir (dirs w)) w)
  else ret tt.

(** [STORAGE_DIR.iterdir()] *)
Definition iterdir (dir : string) : M directory :=
  fun w =>
    match dirs w !! dir with
    | Some files => (Ok files, w)
    | None => (Raise (OSError "FileNotFoundError"), w)
    end.

(** [STORAGE_DIR.mkdir(exist_ok=True)], run when the module is
    imported. *)
Definition startup : M unit :=
  fun w =>
    match dirs w !! STORAGE_DIR E with
    | Some _ => (Ok tt, w)
    | None => (Ok tt, set_dirs (<[STORAGE_DIR E := ∅]> (dirs w)) w)
    end.

(** *** Index providers *)

Definition get_s3_index : M (Index E) :=
  let* entries := iterdir (STORAGE_DIR E) in
  if negb (bool_decide (entries = ∅)) then
    emit (EvLoadSnapshot (STORAGE_DIR E));;
    lift (load_index_from_storage E entries)
  else
    emit EvS3Fetch;;
    let* documents := lift (s3_load_data E) in
    emit EvBuildIndex;;
    let* index := lift (from_documents E documents) in
    emit (EvPersist (STORAGE_DIR E));;
    let* files := lift (persist_files E index) in
    (fun w => (Ok tt, set_dirs (<[STORAGE_DIR E := files ∪ entries]> (dirs w)) w));;
    ret index.

(** The body of the [for pdf in pdf_files] loop, for the remaining
    items. *)
Fixpoint write_pdfs (tmp_dir : string) (pdfs : list pyval) : M unit :=
  match pdfs with
  | [] => ret tt
  | pdf :: rest =>
      let* name := lift (subscript pdf "name") in
      match name with
      | PStr name =>
          open_wb tmp_dir name;;
          let* data := lift (subscript pdf "data") in
          let* decoded := lift (b64decode E data) in
          write_file tmp_dir name decoded;;
          write_pdfs tmp_dir rest
      | _ => raise TypeError
      end
  end.

(** The [try] block of [build_pdf_index]. *)
Definition extract_and_index (tmp_dir : string) (pdf_files : pyval) : M (Index E) :=
  let* items := lift (py_iter pdf_files) in
  write_pdfs tmp_dir items;;
  emit (EvReadDir tmp_dir);;
  let* files := iterdir tmp_dir in
  let* documents := lift (dir_load_data E files) in
  emit EvBuildIndex;;
  lift (from_documents E documents).

Definition build_pdf_index (pdf_files : pyval) : M (Index E) :=
  let* n := lift (py_len pdf_files) in
  let* tmp_dir := mkdtemp in
  try_finally (extract_and_index tmp_dir pdf_files)
              (rmtree_ignore_errors tmp_dir).

(** *** The workflow *)

(** [GraphState]: a dictionary with the keys [question], [context],
    [response], [pdf_files] and [use_s3]. *)
Abbreviation GraphState := (gmap string pyval).

Definition getitem (state : GraphState) (key : string) : M pyval :=
  match state !! key with
  | Some v => ret v
  | None => raise (KeyError key)
  end.

Definition SENTINEL : string := "No context available.".
Definition UPLOADED_LABEL : string := "[Uploaded PDFs]" +:+ NL.
Definition S3_LABEL : string := "[S3 Documents]" +:+ NL.

(** ["\n\n".join(contexts) if contexts else "No context available."] *)
Definition compose_context (contexts : list string) : string :=
  match contexts with
  | [] => SENTINEL
  | _ :: _ => join (NL +:+ NL) contexts
  end.

(** The first [if] of [retrieve]: the list [contexts] after it. *)
Definition retrieve_uploads (state : GraphState) (contexts : list string)
  : M (list string) :=
  if truthy (default PNone (state !! "pdf_files")) then
    let* pdf_files := getitem state "pdf_files" in
    let* pdf_index := build_pdf_index pdf_files in
    let* qe := lift (as_query_engine E pdf_index 3) in
    let* question := getitem state "question" in
    emit (EvQuery question);;
    let* result := lift (query E qe question) in
    ret (contexts ++ [UPLOADED_LABEL +:+ result])%list
  else ret contexts.

(** The second [if] of [retrieve]. *)
Definition retrieve_s3 (state : GraphState) (contexts : list string)
  : M (list string) :=
  if truthy (default (PBool true) (state !! "use_s3")) then
    let* s3_index := get_s3_index in
    let* qe := lift (as_query_engine E s3_index 3) in
    let* question := getitem state "question" in
    emit (EvQuery question);;
    let* result := lift (query E qe question) in
    ret (contexts ++ [S3_LABEL +:+ result])%list
  else ret contexts.

Definition retrieve (state : GraphState) : M GraphState :=
  let* contexts := retrieve_uploads state [] in
  let* contexts := retrieve_s3 state contexts in
  ret {[ "context" := PStr (compose_context contexts) ]}.

(** How an f-string renders a value. *)
Definition format_value (v : pyval) : string :=
  match v with
  | PStr s => s
  | _ => str_of E v
  end.

Definition PROMPT_HEAD : string :=
  NL +:+ "    You are an expert research assistant. Use the provided context AND your general knowledge."
     +:+ NL +:+ "    Context: ".
Definition PROMPT_MID : string := NL +:+ "    Question: ".
Definition PROMPT_TAIL : string := NL +:+ "    Answer:".

Definition build_prompt (context question : string) : string :=
  PROMPT_HEAD +:+ context +:+ PROMPT_MID +:+ question +:+ PROMPT_TAIL.

Definition generate_answer (state : GraphState) : M GraphState :=
  let* context := getitem state "context" in
  let* question := getitem state "question" in
  let prompt := build_prompt (format_value context) (format_value question) in
  emit (EvComplete prompt);;
  let* response := lift (complete E prompt) in
  ret {[ "response" := PStr response ]}.

(** A node of the graph runs on the state and its partial update is
    merged into the state, the update's keys winning. *)
Definition run_node (name : string) (node : GraphState -> M GraphState)
    (state : GraphState) : M GraphState :=
  emit (EvNode name);;
  let* update := node state in
  ret (update ∪ state).

(** [rag_graph.invoke]: entry point [retrieve], edge to [generate],
    edge to [END]. *)
Definition rag_graph (input : GraphState) : M GraphState :=
  let* state := run_node "retrieve" retrieve input in
  run_node "generate" generate_answer state.

(** *** The request handler *)

Definition initial_state (question pdf_files use_s3 : pyval) : GraphState :=
  {[ "question" := question;
     "pdf_files" := pdf_files;
     "use_s3" := use_s3;
     "context" := PStr "";
     "response" := PStr "" ]}.

Definition error_body : pyval :=
  PDict {[ "error" := PStr "No question provided" ]}.

Definition success_body (response : pyval) : pyval :=
  PDict {[ "status" := PStr "success"; "response" := response ]}.

(** [get_response] on the parsed body [data = request.json]; the result
    is the status code and the JSON body. *)
Definition get_response (data : pyval) : M (nat * pyval) :=
  let* user_question := lift (py_get data "question" PNone) in
  if negb (truthy user_question) then ret (400, error_body)
  else
    let* pdf_files := lift (py_get data "pdf_files" (PList [])) in
    let* use_s3 := lift (py_get data "use_s3" (PBool (negb (truthy pdf_files)))) in
    let* result := rag_graph (initial_state user_question pdf_files use_s3) in
    let* response := getitem result "response" in
    ret (200, success_body response).

End Program.

(** ** A concrete environment

    [base64.b64decode] is implemented after CPython's non-strict
    decoder, and the remaining services are small deterministic
    stand-ins, so that the program can be run on concrete requests. *)

Module Base64.

(** The value of a character of the base64 alphabet. *)
Definition sextet (c : ascii) : option N :=
  let n := N_of_ascii c in
  if (65 <=? n)%N && (n <=? 90)%N then Some (n - 65)%N
  else if (97 <=? n)%N && (n <=? 122)%N then Some (n - 71)%N
  else if (48 <=? n)%N && (n <=? 57)%N then Some (n + 4)%N
  else if (n =? 43)%N then Some 62%N
  else if (n =? 47)%N then Some 63%N
  else None.

Definition byte_of (n : N) : byte :=
  default x00 (Byte.of_N (n mod 256)%N).

(** [binascii.a2b_base64] with [strict_mode] off: characters outside
    the alphabet are skipped, a complete pad sequence ends the input,
    and a quad left open at the end is an error.  [out] is the output
    so far, reversed. *)
Fixpoint a2b (s : string) (quad_pos : nat) (leftchar : N) (pads : nat)
         (out : bytes) : result bytes :=
  match s with
  | EmptyString =>
      match quad_pos with
      | 0 => Ok (rev out)
      | _ => Raise BinasciiError
      end
  | String c s' =>
      if Ascii.eqb c "="%char then
        if (2 <=? quad_pos)%nat && (4 <=? quad_pos + S pads)%nat
        then Ok (rev out)
        else a2b s' quad_pos leftchar
                 (if (2 <=? quad_pos)%nat then S pads else pads) out
      else
        match sextet c with
        | None => a2b s' quad_pos leftchar pads out
        | Some v =>
            match quad_pos with
            | 0 => a2b s' 1 v 0 out
            | 1 => a2b s' 2 (N.land v 15) 0
                       (byte_of (N.lor (N.shiftl leftchar 2) (N.shiftr v 4)) :: out)
            | 2 => a2b s' 3 (N.land v 3) 0
                       (byte_of (N.lor (N.shiftl leftchar 4) (N.shiftr v 2)) :: out)
            | _ => a2b s' 0 0%N 0
                       (byte_of (N.lor (N.shiftl leftchar 6) v) :: out)
            end
        end
  end.

Fixpoint is_ascii (s : string) : bool :=
  match s with
  | EmptyString => true
  | String c s' => (N_of_ascii c <? 128)%N && is_ascii s'
  end.

Definition b64decode (v : pyval) : result bytes :=
  match v with
  | PStr s => if is_ascii s then a2b s 0 0%N 0 [] else Raise ValueError
  | _ => Raise TypeError
  end.

End Base64.

Module Lab.

Definition ends_with (suffix s : string) : bool :=
  (String.length suffix <=? String.length s)%nat
  && String.eqb (substring (String.length s - String.length suffix)
                           (String.length suffix) s) suffix.

Definition doc : Type := string * bytes.

(** Every file named [*.pdf] becomes one document; a directory without
    such a file is refused by the reader. *)
Definition load_pdfs (files : directory) : result (list doc) :=
  match filter (fun kv => ends_with ".pdf" kv.1 = true) (map_to_list files) with
  | [] => Raise ValueError
  | docs => Ok docs
  end.

(** A query engine is the index with its [similarity_top_k]; it
    answers with the names of the first documents. *)
Definition answer (engine : list doc * nat) (question : pyval) : result string :=
  match engine.1 with
  | [] => Ok "Empty Response"
  | _ => Ok (join ", " ((take engine.2 engine.1).*1))
  end.

(** The environment, given the query engine and the verdict on
    removing a tree. *)
Definition make (engine : list doc * nat -> pyval -> result string)
           (removable : string -> bool) : Env := {|
  Document := doc;
  Index := list doc;
  QueryEngine := list doc * nat;
  STORAGE_DIR := "/srv/folio/storage";
  tmp_candidate := fun n => Ok ("/tmp/tmp" +:+ pretty n);
  rmtree_ok := removable;
  fs_open := fun _ => Ok tt;
  fs_write := fun _ _ => Ok tt;
  b64decode := Base64.b64decode;
  str_of := fun _ => "<value>";
  s3_load_data := Ok [("corpus.pdf", [])];
  dir_load_data := load_pdfs;
  from_documents := fun docs => Ok docs;
  persist_files := fun _ => Ok {[ "docstore.json" := []; "index_store.json" := [] ]};
  load_index_from_storage := fun _ => Ok [("snapshot.pdf", [])];
  as_query_engine := fun index top_k => Ok (index, top_k);
  query := engine;
  complete := fun _ => Ok "An answer."
|}.

Definition env : Env := make answer (fun _ => true).

(** A query engine whose answers render as the empty string. *)
Definition silent : Env := make (fun _ _ => Ok "") (fun _ => true).

(** An operating system that refuses to delete temporary trees. *)
Definition sticky : Env := make answer (fun _ => false).

(** A process whose snapshot directory exists and is empty. *)
Definition fresh : World :=
  mkWorld {[ "/srv/folio/storage" := ∅ ]} 0 [].

(** A process whose snapshot directory holds a snapshot. *)
Definition seeded : World :=
  mkWorld {[ "/srv/folio/storage" := {[ "docstore.json" := [] ]} ]} 0 [].

(** An upload whose data decodes, and one whose data does not. *)
Definition paper : pyval :=
  PDict {[ "name" := PStr "paper.pdf"; "data" := PStr "JVBERi0x" ]}.

Definition broken : pyval :=
  PDict {[ "name" := PStr "broken.pdf"; "data" := PStr "JVBERi0" ]}.

Definition both_sources : gmap string pyval :=
  initial_state (PStr "What is RAG?") (PList [paper]) (PBool true).

Definition uploads_only : gmap string pyval :=
  initial_state (PStr "Summarize this") (PList [paper]) (PBool false).

Definition no_source : gmap string pyval :=
  initial_state (PStr "What is RAG?") (PList []) (PBool false).

(** Request bodies. *)
Definition empty_question : gmap string pyval :=
  {[ "question" := PStr ""; "pdf_files" := PList [paper] ]}.

Definition upload_request : gmap string pyval :=
  {[ "question" := PStr "Summarize this"; "pdf_files" := PList [paper] ]}.

Definition plain_request : gmap string pyval :=
  {[ "question" := PStr "What is RAG?" ]}.

Definition broken_request : gmap string pyval :=
  {[ "question" := PStr "Summarize this";
     "pdf_files" := PList [broken];
     "use_s3" := PBool false ]}.

(** The environment with object storage out of reach. *)
Definition offline : Env := {|
  Document := doc;
  Index := list doc;
  QueryEngine := list doc * nat;
  STORAGE_DIR := "/srv/folio/storage";
  tmp_candidate := fun n => Ok ("/tmp/tmp" +:+ pretty n);
  rmtree_ok := fun _ => true;
  fs_open := fun _ => Ok tt;
  fs_write := fun _ _ => Ok tt;
  b64decode := Base64.b64decode;
  str_of := fun _ => "<value>";
  s3_load_data := Raise (ServiceError "object storage");
  dir_load_data := load_pdfs;
  from_documents := fun docs => Ok docs;
  persist_files := fun _ => Ok {[ "docstore.json" := []; "index_store.json" := [] ]};
  load_index_from_storage := fun _ => Ok [("snapshot.pdf", [])];
  as_query_engine := fun index top_k => Ok (index, top_k);
  query := answer;
  complete := fun _ => Ok "An answer."
|}.

(** A request for the persistent corpus alone, and the state it makes. *)
Definition corpus_only : gmap string pyval :=
  initial_state (PStr "What is RAG?") (PList []) (PBool true).

End Lab.

(** ** Observations on the trace *)

Definition is_fetch (ev : Event) : bool :=
  match ev with EvS3Fetch => true | _ => false end.

Definition is_completion (ev : Event) : bool :=
  match ev with EvComplete _ => true | _ => false end.

Definition is_node (ev : Event) : bool :=
  match ev with EvNode _ => true | _ => false end.

(** How often object storage was fetched, the language model was
    called, and a node of the workflow was entered. *)
Definition fetches (t : list Event) : nat := length (List.filter is_fetch t).
Definition completions (t : list Event) : nat := length (List.filter is_completion t).
Definition node_entries (t : list Event) : nat := length (List.filter is_node t).

(** A computation keeps a property of the world, whatever its
    outcome. *)
Definition preserves {A} (P : World -> Prop) (m : M A) : Prop :=
  forall w, P w -> P (m w).2.

(** The snapshot directory exists. *)
Definition has_storage (E : Env) (w : World) : Prop :=
  is_Some (dirs w !! STORAGE_DIR E).

(** ** Vocabulary for further properties *)

(** The world holds [n] events selected by [f]. *)
Definition counts (f : Event -> bool) (n : nat) (w : World) : Prop :=
  length (List.filter f (trace w)) = n.

(** The events of the upload branch of the retrieval stage, and those of
    its persistent-corpus branch. *)
Definition upload_event (ev : Event) : bool :=
  match ev with
  | EvMkdtemp _ | EvOpen _ | EvWrite _ _ | EvReadDir _ | EvRmtree _
  | EvBuildIndex | EvQuery _ => true
  | _ => false
  end.

Definition snapshot_event (ev : Event) : bool :=
  match ev with
  | EvLoadSnapshot _ | EvS3Fetch | EvBuildIndex | EvPersist _
  | EvQuery _ => true
  | _ => false
  end.

(** A call that reads the snapshot, fetches object storage or writes
    the snapshot. *)
Definition touches_corpus (ev : Event) : bool :=
  match ev with
  | EvLoadSnapshot _ | EvS3Fetch | EvPersist _ => true
  | _ => false
  end.

(** The directory after the given files have been written in order. *)
Definition upload_files (entries : list (string * bytes)) (files : directory)
  : directory :=
  foldl (fun m entry => <[entry.1 := entry.2]> m) files entries.

(** The name and the decoded content of a well-formed upload. *)
Definition decode_upload (E : Env) (pdf : pyval) : option (string * bytes) :=
  match pdf with
  | PDict file =>
      match file !! "name", file !! "data" with
      | Some (PStr name), Some data =>
          match b64decode E data with
          | Ok decoded => Some (name, decoded)
          | Raise _ => None
          end
      | _, _ => None
      end
  | _ => None
  end.

(** The directories other than [dir] are those of [base]. *)
Definition same_outside (dir : string) (base : gmap string directory)
    (w : World) : Prop :=
  delete dir (dirs w) = delete dir base.

(** ** The decoder on sample data *)

Example b64_hello :
  Base64.b64decode (PStr "aGVsbG8=") = Ok [x68; x65; x6c; x6c; x6f].
Proof. vm_compute. reflexivity. Qed.

Example b64_open_quad : Base64.b64decode (PStr "JVBERi0") = Raise BinasciiError.
Proof. reflexivity. Qed.

Example b64_skips_foreign : Base64.b64decode (PStr "%%%") = Ok [].
Proof. reflexivity. Qed.

(** ** Reasoning about monadic code *)

Section MonadLemmas.

Context {A B : Type}.

Lemma bind_Ok (m : M A) (k : A -> M B) w b w' :
  bind m k w = (Ok b, w') ->
  exists a w1, m w = (Ok a, w1) /\ k a w1 = (Ok b, w').
Proof.
  unfold bind. destruct (m w) as [[a|e] w1]; intros H.
  - exists a, w1. split; [reflexivity | exact H].
  - discriminate H.
Qed.

Lemma bind_run_Ok (m : M A) (k : A -> M B) w a w1 :
  m w = (Ok a, w1) -> bind m k w = k a w1.
Proof. intros H. unfold bind. rewrite H. reflexivity. Qed.

Lemma bind_run_Raise (m : M A) (k : A -> M B) w e w1 :
  m w = (Raise e, w1) -> bind m k w = (Raise e, w1).
Proof. intros H. unfold bind. rewrite H. reflexivity. Qed.

Lemma lift_Ok (r : result A) w a w' :
  lift r w = (Ok a, w') -> r = Ok a /\ w' = w.
Proof. unfold lift. intros H. injection H as -> ->. split; reflexivity. Qed.

Lemma ret_Ok (x : A) w a w' :
  ret x w = (Ok a, w') -> a = x /\ w' = w.
Proof. unfold ret. intros H. injection H as -> ->. split; reflexivity. Qed.

End MonadLemmas.

Lemma emit_Ok ev w u w' : emit ev w = (Ok u, w') -> w' = emit_in ev w.
Proof. unfold emit. intros H. injection H as _ ->. reflexivity. Qed.

Lemma getitem_Ok (state : gmap string pyval) key w v w' :
  getitem state key w = (Ok v, w') -> state !! key = Some v /\ w' = w.
Proof.
  unfold getitem. destruct (state !! key) as [x|]; intros H.
  - apply ret_Ok in H as [-> ->]. split; reflexivity.
  - discriminate H.
Qed.

(** Decompose a successful run into the successful runs of its steps. *)
Ltac step_Ok H :=
  match type of H with
  | bind _ _ _ = (Ok _, _) =>
      let a := fresh "a" in
      let w := fresh "w" in
      let H1 := fresh "Hrun" in
      apply bind_Ok in H as (a & w & H1 & H); step_Ok H1
  | lift _ _ = (Ok _, _) => apply lift_Ok in H as [H ->]
  | ret _ _ = (Ok _, _) => apply ret_Ok in H as [-> ->]
  | emit _ _ = (Ok _, _) => apply emit_Ok in H as ->
  | getitem _ _ _ = (Ok _, _) => apply getitem_Ok in H as [H ->]
  | _ => idtac
  end.

Ltac steps_Ok H := repeat (progress step_Ok H).

(** ** Composition of the context *)

Lemma label_fragment_nonempty (label body : string) :
  label <> "" -> label +:+ body <> "".
Proof. destruct label; [congruence | discriminate]. Qed.

Lemma append_empty_l (a b : string) : a +:+ b = "" -> a = "".
Proof. destruct a; [reflexivity | discriminate]. Qed.

Lemma join_head_nonempty (sep x : string) (xs : list string) :
  x <> "" -> join sep (x :: xs) <> "".
Proof.
  intros Hx. unfold join. destruct xs as [|y ys]; simpl.
  - exact Hx.
  - intros H. apply Hx. eapply append_empty_l. exact H.
Qed.

Lemma compose_context_nonempty (contexts : list string) :
  Forall (fun f => f <> "") contexts -> compose_context contexts <> "".
Proof.
  intros Hall. destruct contexts as [|x xs].
  - discriminate.
  - apply join_head_nonempty. inversion Hall; assumption.
Qed.

Lemma append_assoc (a b c : string) : (a +:+ b) +:+ c = a +:+ b +:+ c.
Proof.
  induction a as [|x a IH]; [reflexivity |].
  change (String x ((a +:+ b) +:+ c) = String x (a +:+ b +:+ c)).
  f_equal. exact IH.
Qed.

Lemma compose_two (a b : string) :
  compose_context [a; b] = a +:+ NL +:+ NL +:+ b.
Proof.
  unfold compose_context, join. simpl.
  rewrite append_assoc. reflexivity.
Qed.

(** ** The two branches of the retrieval stage *)

Section Retrieval.

Context (E : Env).

Lemma retrieve_uploads_skip (state : gmap string pyval) contexts w :
  truthy (default PNone (state !! "pdf_files")) = false ->
  retrieve_uploads E state contexts w = (Ok contexts, w).
Proof. intros H. unfold retrieve_uploads. rewrite H. reflexivity. Qed.

Lemma retrieve_uploads_Ok (state : gmap string pyval) contexts w contexts' w' :
  truthy (default PNone (state !! "pdf_files")) = true ->
  retrieve_uploads E state contexts w = (Ok contexts', w') ->
  exists pdf_files pdf_index w1 qe question result,
    state !! "pdf_files" = Some pdf_files
    /\ build_pdf_index E pdf_files w = (Ok pdf_index, w1)
    /\ as_query_engine E pdf_index 3 = Ok qe
    /\ state !! "question" = Some question
    /\ query E qe question = Ok result
    /\ contexts' = (contexts ++ [UPLOADED_LABEL +:+ result])%list
    /\ w' = emit_in (EvQuery question) w1.
Proof.
  intros Ht H. unfold retrieve_uploads in H. rewrite Ht in H.
  steps_Ok H.
  eexists _, _, _, _, _, _. repeat split; eassumption || reflexivity.
Qed.

Lemma retrieve_s3_skip (state : gmap string pyval) contexts w :
  truthy (default (PBool true) (state !! "use_s3")) = false ->
  retrieve_s3 E state contexts w = (Ok contexts, w).
Proof. intros H. unfold retrieve_s3. rewrite H. reflexivity. Qed.

Lemma retrieve_s3_Ok (state : gmap string pyval) contexts w contexts' w' :
  truthy (default (PBool true) (state !! "use_s3")) = true ->
  retrieve_s3 E state contexts w = (Ok contexts', w') ->
  exists s3_index w1 qe question result,
    get_s3_index E w = (Ok s3_index, w1)
    /\ as_query_engine E s3_index 3 = Ok qe
    /\ state !! "question" = Some question
    /\ query E qe question = Ok result
    /\ contexts' = (contexts ++ [S3_LABEL +:+ result])%list
    /\ w' = emit_in (EvQuery question) w1.
Proof.
  intros Ht H. unfold retrieve_s3 in H. rewrite Ht in H.
  steps_Ok H.
  eexists _, _, _, _, _. repeat split; eassumption || reflexivity.
Qed.

Lemma retrieve_Ok (state : gmap string pyval) w update w' :
  retrieve E state w = (Ok update, w') ->
  exists c1 w1 c2,
    retrieve_uploads E state [] w = (Ok c1, w1)
    /\ retrieve_s3 E state c1 w1 = (Ok c2, w')
    /\ update = {[ "context" := PStr (compose_context c2) ]}.
Proof.
  intros H. unfold retrieve in H. steps_Ok H.
  eexists _, _, _. repeat split; eassumption.
Qed.

End Retrieval.

(** ** The claims about the retrieval stage *)

(** When every outside call of a branch succeeds, the branch returns
    with its fragment appended. *)
Lemma retrieve_uploads_run (E : Env) (state : gmap string pyval) contexts w
    pdf_files pdf_index w1 qe question result :
  truthy (default PNone (state !! "pdf_files")) = true ->
  state !! "pdf_files" = Some pdf_files ->
  build_pdf_index E pdf_files w = (Ok pdf_index, w1) ->
  as_query_engine E pdf_index 3 = Ok qe ->
  state !! "question" = Some question ->
  query E qe question = Ok result ->
  retrieve_uploads E state contexts w
  = (Ok (contexts ++ [UPLOADED_LABEL +:+ result])%list,
     emit_in (EvQuery question) w1).
Proof.
  intros Ht Hpf Hbuild Hqe Hq Hr. unfold retrieve_uploads. rewrite Ht.
  unfold getitem. rewrite Hpf, Hq.
  rewrite (bind_run_Ok _ _ w pdf_files w) by reflexivity.
  rewrite (bind_run_Ok _ _ _ _ _ Hbuild).
  unfold bind, lift, emit, ret. rewrite Hqe, Hr. reflexivity.
Qed.

Lemma retrieve_s3_run (E : Env) (state : gmap string pyval) contexts w
    s3_index w1 qe question result :
  truthy (default (PBool true) (state !! "use_s3")) = true ->
  get_s3_index E w = (Ok s3_index, w1) ->
  as_query_engine E s3_index 3 = Ok qe ->
  state !! "question" = Some question ->
  query E qe question = Ok result ->
  retrieve_s3 E state contexts w
  = (Ok (contexts ++ [S3_LABEL +:+ result])%list,
     emit_in (EvQuery question) w1).
Proof.
  intros Ht Hget Hqe Hq Hr. unfold retrieve_s3. rewrite Ht.
  unfold getitem. rewrite Hq.
  rewrite (bind_run_Ok _ _ _ _ _ Hget).
  unfold bind, lift, emit, ret. rewrite Hqe, Hr. reflexivity.
Qed.

(** C1. When uploaded documents are present and the persistent-corpus
    flag is true, the context that [retrieve] produces is the fragment
    labelled "Uploaded PDFs", a blank line, and the fragment labelled
    "S3 Documents", in this order; each fragment is its label line
    followed by what the query on the respective index rendered.
    [retrieve] does return this context when building the upload index,
    getting the persistent index and the two queries succeed. *)
Theorem retrieve_uploads_before_s3 (E : Env) (state : gmap string pyval)
    (w : World) :
  truthy (default PNone (state !! "pdf_files")) = true ->
  truthy (default (PBool true) (state !! "use_s3")) = true ->
  (forall update w',
     retrieve E state w = (Ok update, w') ->
     exists pdf_engine s3_engine question uploaded persistent,
       state !! "question" = Some question
       /\ query E pdf_engine question = Ok uploaded
       /\ query E s3_engine question = Ok persistent
       /\ update = {[ "context" :=
                      PStr ((UPLOADED_LABEL +:+ uploaded) +:+ NL +:+ NL
                            +:+ (S3_LABEL +:+ persistent)) ]})
  /\ (forall pdf_files pdf_index w1 pdf_engine question uploaded
             s3_index w2 s3_engine persistent,
        state !! "pdf_files" = Some pdf_files ->
        build_pdf_index E pdf_files w = (Ok pdf_index, w1) ->
        as_query_engine E pdf_index 3 = Ok pdf_engine ->
        state !! "question" = Some question ->
        query E pdf_engine question = Ok uploaded ->
        get_s3_index E (emit_in (EvQuery question) w1) = (Ok s3_index, w2) ->
        as_query_engine E s3_index 3 = Ok s3_engine ->
        query E s3_engine question = Ok persistent ->
        retrieve E state w
        = (Ok {[ "context" :=
                 PStr ((UPLOADED_LABEL +:+ uploaded) +:+ NL +:+ NL
                       +:+ (S3_LABEL +:+ persistent)) ]},
           emit_in (EvQuery question) w2)).
Proof.
  intros Hpdf Hs3. split.
  - intros update w' H.
    apply retrieve_Ok in H as (c1 & w1 & c2 & Hup & Hsn & ->).
    apply (retrieve_uploads_Ok E _ _ _ _ _ Hpdf) in Hup
      as (pf & idx1 & w2 & qe1 & q1 & r1 & _ & _ & _ & Hq1 & Hr1 & -> & ->).
    apply (retrieve_s3_Ok E _ _ _ _ _ Hs3) in Hsn
      as (idx2 & w3 & qe2 & q2 & r2 & _ & _ & Hq2 & Hr2 & -> & ->).
    assert (q2 = q1) as -> by congruence.
    exists qe1, qe2, q1, r1, r2.
    split; [assumption |]. split; [assumption |]. split; [assumption |].
    simpl app. rewrite compose_two. reflexivity.
  - intros pf idx1 w1 qe1 q r1 idx2 w2 qe2 r2 Hpf Hbuild Hqe1 Hq Hr1 Hget Hqe2 Hr2.
    unfold retrieve.
    rewrite (bind_run_Ok _ _ _ _ _
               (retrieve_uploads_run E state [] w pf idx1 w1 qe1 q r1
                  Hpdf Hpf Hbuild Hqe1 Hq Hr1)).
    rewrite (bind_run_Ok _ _ _ _ _
               (retrieve_s3_run E state _ _ idx2 w2 qe2 q r2
                  Hs3 Hget Hqe2 Hq Hr2)).
    unfold ret. simpl app. rewrite compose_two. reflexivity.
Qed.

Lemma retrieve_uploads_before_s3_witness :
  exists update w',
    retrieve Lab.env Lab.both_sources Lab.seeded = (Ok update, w')
    /\ exists pdf_engine s3_engine question uploaded persistent,
        Lab.both_sources !! "question" = Some question
        /\ query Lab.env pdf_engine question = Ok uploaded
        /\ query Lab.env s3_engine question = Ok persistent
        /\ update = {[ "context" :=
                       PStr ((UPLOADED_LABEL +:+ uploaded) +:+ NL +:+ NL
                             +:+ (S3_LABEL +:+ persistent)) ]}.
Proof.
  eexists _, _. split.
  - vm_compute. reflexivity.
  - eapply (proj1 (retrieve_uploads_before_s3 Lab.env Lab.both_sources
                     Lab.seeded eq_refl eq_refl)).
    vm_compute. reflexivity.
Defined.

Lemma append_nil_r (a : string) : a +:+ "" = a.
Proof.
  induction a as [|x a IH]; [reflexivity |].
  change (String x (a +:+ "") = String x a). f_equal. exact IH.
Qed.

Lemma Ok_inj {A} (a b : A) : Ok a = Ok b -> a = b.
Proof. intros H. injection H as H. exact H. Qed.

Lemma context_update_inj (c1 c2 : string) :
  ({[ "context" := PStr c1 ]} : gmap string pyval) = {[ "context" := PStr c2 ]} ->
  c1 = c2.
Proof.
  intros H.
  apply (f_equal (fun m : gmap string pyval => m !! "context")) in H.
  rewrite !lookup_singleton_eq in H. congruence.
Qed.

Lemma UPLOADED_LABEL_nonempty : UPLOADED_LABEL <> "".
Proof. discriminate. Qed.

Lemma S3_LABEL_nonempty : S3_LABEL <> "".
Proof. discriminate. Qed.

(** Both branches keep every collected fragment non-empty. *)
Lemma retrieve_uploads_fragments (E : Env) (state : gmap string pyval)
    contexts w contexts' w' :
  Forall (fun f => f <> "") contexts ->
  retrieve_uploads E state contexts w = (Ok contexts', w') ->
  Forall (fun f => f <> "") contexts'.
Proof.
  intros Hall H.
  destruct (truthy (default PNone (state !! "pdf_files"))) eqn:Ht.
  - apply (retrieve_uploads_Ok E _ _ _ _ _ Ht) in H
      as (? & ? & ? & ? & ? & r & _ & _ & _ & _ & _ & -> & _).
    apply Forall_app. split; [exact Hall |].
    constructor; [| constructor].
    apply label_fragment_nonempty, UPLOADED_LABEL_nonempty.
  - rewrite (retrieve_uploads_skip E _ _ _ Ht) in H.
    injection H as <- _. exact Hall.
Qed.

Lemma retrieve_s3_fragments (E : Env) (state : gmap string pyval)
    contexts w contexts' w' :
  Forall (fun f => f <> "") contexts ->
  retrieve_s3 E state contexts w = (Ok contexts', w') ->
  Forall (fun f => f <> "") contexts'.
Proof.
  intros Hall H.
  destruct (truthy (default (PBool true) (state !! "use_s3"))) eqn:Ht.
  - apply (retrieve_s3_Ok E _ _ _ _ _ Ht) in H
      as (? & ? & ? & ? & r & _ & _ & _ & _ & -> & _).
    apply Forall_app. split; [exact Hall |].
    constructor; [| constructor].
    apply label_fragment_nonempty, S3_LABEL_nonempty.
  - rewrite (retrieve_s3_skip E _ _ _ Ht) in H.
    injection H as <- _. exact Hall.
Qed.

Lemma retrieve_update_shape (E : Env) (state : gmap string pyval) w update w' :
  retrieve E state w = (Ok update, w') ->
  exists c, update = {[ "context" := PStr c ]} /\ c <> "".
Proof.
  intros H. apply retrieve_Ok in H as (c1 & w1 & c2 & Hup & Hsn & ->).
  eexists. split; [reflexivity |].
  apply compose_context_nonempty.
  eapply retrieve_s3_fragments; [| exact Hsn].
  eapply retrieve_uploads_fragments; [| exact Hup].
  constructor.
Qed.

(** C2. After the retrieval stage the context is never the empty
    string.  With no uploaded documents and the persistent-corpus flag
    false, [retrieve] calls nothing, always returns, and the context is
    exactly the sentinel; whenever [retrieve] returns, its update is a
    non-empty context; and so is the context of the state handed on to
    the generation stage. *)
Theorem retrieve_context_never_empty (E : Env) (state : gmap string pyval)
    (w : World) :
  (truthy (default PNone (state !! "pdf_files")) = false ->
   truthy (default (PBool true) (state !! "use_s3")) = false ->
   retrieve E state w = (Ok {[ "context" := PStr "No context available." ]}, w))
  /\ (forall update w',
        retrieve E state w = (Ok update, w') ->
        exists c, update = {[ "context" := PStr c ]} /\ c <> "")
  /\ (forall state' w',
        run_node "retrieve" (retrieve E) state w = (Ok state', w') ->
        exists c, state' !! "context" = Some (PStr c) /\ c <> "").
Proof.
  split; [| split].
  - intros Hpdf Hs3. unfold retrieve.
    rewrite (bind_run_Ok _ _ _ _ _ (retrieve_uploads_skip E state [] w Hpdf)).
    rewrite (bind_run_Ok _ _ _ _ _ (retrieve_s3_skip E state [] w Hs3)).
    reflexivity.
  - intros update w'. apply retrieve_update_shape.
  - intros state' w' H. unfold run_node in H. steps_Ok H.
    apply retrieve_update_shape in Hrun as (c & -> & Hc).
    exists c. split; [| exact Hc].
    apply lookup_union_Some_l, lookup_singleton_eq.
Qed.

Lemma retrieve_context_never_empty_witness :
  retrieve Lab.env Lab.no_source Lab.fresh
  = (Ok {[ "context" := PStr "No context available." ]}, Lab.fresh)
  /\ exists update w' c,
      retrieve Lab.env Lab.both_sources Lab.seeded = (Ok update, w')
      /\ update = {[ "context" := PStr c ]} /\ c <> "".
Proof.
  split.
  - apply (proj1 (retrieve_context_never_empty Lab.env Lab.no_source Lab.fresh));
      reflexivity.
  - assert (exists update w',
              retrieve Lab.env Lab.both_sources Lab.seeded = (Ok update, w'))
      as (update & w' & Hrun).
    { eexists _, _. vm_compute. reflexivity. }
    destruct (proj1 (proj2 (retrieve_context_never_empty
                              Lab.env Lab.both_sources Lab.seeded))
                    update w' Hrun) as (c & Hc & Hne).
    exists update, w', c. split; [exact Hrun |]. split; assumption.
Defined.

(** C3, as it holds of the code.  When uploaded documents are present
    and [retrieve] returns, the "Uploaded PDFs" fragment has been
    appended whatever the query rendered: the context starts with the
    label line followed by the rendered result, empty or not, and with
    the persistent-corpus flag false it is exactly that. *)
Theorem retrieve_uploads_fragment_unconditional (E : Env)
    (state : gmap string pyval) (w w' : World) (update : gmap string pyval) :
  truthy (default PNone (state !! "pdf_files")) = true ->
  retrieve E state w = (Ok update, w') ->
  exists pdf_files pdf_index w1 qe question result rest,
    state !! "pdf_files" = Some pdf_files
    /\ build_pdf_index E pdf_files w = (Ok pdf_index, w1)
    /\ as_query_engine E pdf_index 3 = Ok qe
    /\ state !! "question" = Some question
    /\ query E qe question = Ok result
    /\ update = {[ "context" := PStr (UPLOADED_LABEL +:+ result +:+ rest) ]}
    /\ (truthy (default (PBool true) (state !! "use_s3")) = false -> rest = "").
Proof.
  intros Hpdf H.
  apply retrieve_Ok in H as (c1 & w1 & c2 & Hup & Hsn & ->).
  apply (retrieve_uploads_Ok E _ _ _ _ _ Hpdf) in Hup
    as (pf & idx1 & w2 & qe1 & q1 & r1 & Hpf & Hbuild & Hqe & Hq1 & Hr1 & -> & ->).
  destruct (truthy (default (PBool true) (state !! "use_s3"))) eqn:Hs3.
  - apply (retrieve_s3_Ok E _ _ _ _ _ Hs3) in Hsn
      as (idx2 & w3 & qe2 & q2 & r2 & _ & _ & _ & _ & -> & _).
    exists pf, idx1, w2, qe1, q1, r1, (NL +:+ NL +:+ S3_LABEL +:+ r2).
    repeat (split; [assumption |]). split; [| discriminate].
    simpl app. rewrite compose_two, append_assoc. reflexivity.
  - rewrite (retrieve_s3_skip E _ _ _ Hs3) in Hsn. injection Hsn as <- _.
    exists pf, idx1, w2, qe1, q1, r1, "".
    repeat (split; [assumption |]). split; [| reflexivity].
    simpl app. unfold compose_context, join. simpl String.concat.
    rewrite append_nil_r. reflexivity.
Qed.

Lemma retrieve_uploads_fragment_unconditional_witness :
  exists update w',
    retrieve Lab.silent Lab.uploads_only Lab.fresh = (Ok update, w')
    /\ exists pdf_files pdf_index w1 qe question result rest,
        Lab.uploads_only !! "pdf_files" = Some pdf_files
        /\ build_pdf_index Lab.silent pdf_files Lab.fresh = (Ok pdf_index, w1)
        /\ as_query_engine Lab.silent pdf_index 3 = Ok qe
        /\ Lab.uploads_only !! "question" = Some question
        /\ query Lab.silent qe question = Ok result
        /\ update = {[ "context" := PStr (UPLOADED_LABEL +:+ result +:+ rest) ]}
        /\ (truthy (default (PBool true) (Lab.uploads_only !! "use_s3")) = false
            -> rest = "").
Proof.
  eexists _, _. split.
  - vm_compute. reflexivity.
  - eapply (retrieve_uploads_fragment_unconditional
              Lab.silent Lab.uploads_only Lab.fresh).
    + reflexivity.
    + vm_compute. reflexivity.
Defined.

(** C3 as worded fails: a query that renders as the empty string still
    contributes a fragment, the label line alone, and the context is not
    the sentinel. *)
Lemma empty_result_still_contributes :
  query Lab.silent ([("paper.pdf", [x25; x50; x44; x46; x2d; x31])], 3)
        (PStr "Summarize this") = Ok ""
  /\ (retrieve Lab.silent Lab.uploads_only Lab.fresh).1
     = Ok {[ "context" := PStr ("[Uploaded PDFs]" +:+ NL) ]}
  /\ (retrieve Lab.silent Lab.uploads_only Lab.fresh).1
     <> Ok {[ "context" := PStr "No context available." ]}.
Proof.
  assert ((retrieve Lab.silent Lab.uploads_only Lab.fresh).1
          = Ok {[ "context" := PStr ("[Uploaded PDFs]" +:+ NL) ]}) as Hrun
    by (vm_compute; reflexivity).
  split; [reflexivity |]. split; [exact Hrun |].
  rewrite Hrun. intros H.
  apply Ok_inj, context_update_inj in H. discriminate H.
Qed.

Lemma mkdtemp_Ok (E : Env) (w : World) (tmp_dir : string) (w1 : World) :
  mkdtemp E w = (Ok tmp_dir, w1) ->
  dirs w !! tmp_dir = None
  /\ w1 = mkWorld (<[tmp_dir := ∅]> (dirs w)) (S (tmp_counter w))
                  (trace w ++ [EvMkdtemp tmp_dir]).
Proof.
  unfold mkdtemp. destruct (tmp_candidate E (tmp_counter w)) as [d|e];
    [| discriminate].
  destruct (dirs w !! d) eqn:Hd; [discriminate |].
  intros H. injection H as <- <-. split; [exact Hd | reflexivity].
Qed.

(** ** The snapshot directory is never lost *)

Section Preservation.

Context {A B : Type} (P : World -> Prop).

Lemma preserves_bind (m : M A) (k : A -> M B) :
  preserves P m -> (forall a, preserves P (k a)) -> preserves P (bind m k).
Proof.
  intros Hm Hk w Hw. unfold bind. specialize (Hm w Hw).
  destruct (m w) as [[a|e] w1]; cbn in *; [by apply Hk | exact Hm].
Qed.

Lemma preserves_ret (a : A) : preserves P (ret a).
Proof. intros w Hw. exact Hw. Qed.

Lemma preserves_raise (e : exn) : preserves P (raise (A := A) e).
Proof. intros w Hw. exact Hw. Qed.

Lemma preserves_lift (r : result A) : preserves P (lift r).
Proof. intros w Hw. exact Hw. Qed.

Lemma preserves_try_finally (body : M A) (cleanup : M unit) :
  preserves P body -> preserves P cleanup ->
  preserves P (try_finally body cleanup).
Proof.
  intros Hb Hc w Hw. unfold try_finally. specialize (Hb w Hw).
  destruct (body w) as [r w1]. cbn in Hb. specialize (Hc w1 Hb).
  destruct (cleanup w1) as [[u|e] w2]; exact Hc.
Qed.

End Preservation.

Lemma preserves_getitem (P : World -> Prop) (state : gmap string pyval) key :
  preserves P (getitem state key).
Proof.
  unfold getitem. destruct (state !! key);
    [apply preserves_ret | apply preserves_raise].
Qed.

Create HintDb keeps discriminated.

#[local] Hint Resolve preserves_ret preserves_raise preserves_lift
  preserves_getitem : keeps.
#[local] Hint Extern 2 (preserves _ (bind _ _)) =>
  apply preserves_bind; [| intros ?] : keeps.
#[local] Hint Extern 2 (preserves _ (if ?b then _ else _)) =>
  destruct b : keeps.
#[local] Hint Extern 3 (preserves _ (match ?v with _ => _ end)) =>
  destruct v : keeps.

Section StorageKept.

Context (E : Env).

Lemma has_storage_insert (w : World) (dir : string) (files : gmap string bytes) :
  has_storage E w -> has_storage E (set_dirs (<[dir := files]> (dirs w)) w).
Proof.
  unfold has_storage. cbn. intros H. rewrite lookup_insert.
  case_decide; [by eexists | exact H].
Qed.

Lemma has_storage_emit (ev : Event) : preserves (has_storage E) (emit ev).
Proof. intros w Hw. exact Hw. Qed.

Lemma has_storage_mkdtemp : preserves (has_storage E) (mkdtemp E).
Proof.
  intros w Hw. unfold mkdtemp.
  destruct (tmp_candidate E (tmp_counter w)) as [d|]; [| exact Hw].
  destruct (dirs w !! d); [exact Hw |].
  unfold has_storage. cbn. rewrite lookup_insert.
  case_decide; [by eexists | exact Hw].
Qed.

Lemma has_storage_open_wb dir name :
  preserves (has_storage E) (open_wb E dir name).
Proof.
  unfold open_wb. apply preserves_bind; [apply has_storage_emit | intros _].
  apply preserves_bind; [apply preserves_lift | intros _].
  destruct (plain_name name); [| apply preserves_ret].
  intros w Hw. destruct (dirs w !! dir); [| exact Hw].
  by apply has_storage_insert.
Qed.

Lemma has_storage_write_file dir name data :
  preserves (has_storage E) (write_file E dir name data).
Proof.
  unfold write_file. apply preserves_bind; [apply has_storage_emit | intros _].
  apply preserves_bind; [apply preserves_lift | intros _].
  destruct (plain_name name); [| apply preserves_ret].
  intros w Hw. destruct (dirs w !! dir); [| exact Hw].
  by apply has_storage_insert.
Qed.

Lemma has_storage_iterdir dir : preserves (has_storage E) (iterdir dir).
Proof. intros w Hw. unfold iterdir. destruct (dirs w !! dir); exact Hw. Qed.

#[local] Hint Resolve has_storage_emit has_storage_mkdtemp
  has_storage_open_wb has_storage_write_file has_storage_iterdir : keeps.

Lemma has_storage_write_pdfs tmp_dir pdfs :
  preserves (has_storage E) (write_pdfs E tmp_dir pdfs).
Proof.
  induction pdfs as [|pdf rest IH]; cbn [write_pdfs]; auto 20 with keeps.
Qed.

#[local] Hint Resolve has_storage_write_pdfs : keeps.

Lemma has_storage_extract tmp_dir pdf_files :
  preserves (has_storage E) (extract_and_index E tmp_dir pdf_files).
Proof. unfold extract_and_index. auto 20 with keeps. Qed.

Lemma has_storage_rmtree dir :
  dir <> STORAGE_DIR E ->
  preserves (has_storage E) (rmtree_ignore_errors E dir).
Proof.
  intros Hne. unfold rmtree_ignore_errors.
  apply preserves_bind; [apply has_storage_emit | intros _].
  destruct (rmtree_ok E dir); [| apply preserves_ret].
  intros w Hw. unfold has_storage. cbn. by rewrite lookup_delete_ne.
Qed.

Lemma has_storage_build_pdf_index pdf_files :
  preserves (has_storage E) (build_pdf_index E pdf_files).
Proof.
  unfold build_pdf_index.
  apply preserves_bind; [apply preserves_lift | intros n].
  intros w Hw. unfold bind.
  destruct (mkdtemp E w) as [[tmp_dir|e] w1] eqn:Hmk.
  - pose proof (has_storage_mkdtemp w Hw) as Hw1. rewrite Hmk in Hw1.
    apply mkdtemp_Ok in Hmk as [Hfresh _].
    apply preserves_try_finally; [apply has_storage_extract | | exact Hw1].
    apply has_storage_rmtree. intros ->.
    destruct Hw as [? Hw]. congruence.
  - pose proof (has_storage_mkdtemp w Hw) as Hw1. by rewrite Hmk in Hw1.
Qed.

Lemma has_storage_get_s3_index : preserves (has_storage E) (get_s3_index E).
Proof.
  unfold get_s3_index.
  apply preserves_bind; [apply has_storage_iterdir | intros entries].
  destruct (negb _); [auto 20 with keeps |].
  apply preserves_bind; [apply has_storage_emit | intros _].
  apply preserves_bind; [apply preserves_lift | intros documents].
  apply preserves_bind; [apply has_storage_emit | intros _].
  apply preserves_bind; [apply preserves_lift | intros index].
  apply preserves_bind; [apply has_storage_emit | intros _].
  apply preserves_bind; [apply preserves_lift | intros files].
  apply preserves_bind; [| intros _; apply preserves_ret].
  intros w Hw. by apply has_storage_insert.
Qed.

#[local] Hint Resolve has_storage_build_pdf_index has_storage_get_s3_index
  : keeps.

Lemma has_storage_retrieve state :
  preserves (has_storage E) (retrieve E state).
Proof.
  unfold retrieve, retrieve_uploads, retrieve_s3. auto 30 with keeps.
Qed.

Lemma has_storage_generate_answer state :
  preserves (has_storage E) (generate_answer E state).
Proof. unfold generate_answer. auto 20 with keeps. Qed.

#[local] Hint Resolve has_storage_retrieve has_storage_generate_answer : keeps.

Lemma has_storage_rag_graph state :
  preserves (has_storage E) (rag_graph E state).
Proof. unfold rag_graph, run_node. auto 20 with keeps. Qed.

(** Import creates the snapshot directory and no request removes it. *)
Lemma startup_has_storage (w : World) : has_storage E (startup E w).2.
Proof.
  unfold startup, has_storage.
  destruct (dirs w !! STORAGE_DIR E) eqn:Hd; cbn.
  - rewrite Hd. by eexists.
  - rewrite lookup_insert_eq. by eexists.
Qed.

Lemma has_storage_get_response data :
  preserves (has_storage E) (get_response E data).
Proof.
  pose proof has_storage_rag_graph.
  unfold get_response. auto 20 with keeps.
Qed.

End StorageKept.

(** ** The claims about the index providers *)

Lemma fetches_snoc (t : list Event) (ev : Event) :
  fetches (t ++ [ev])%list = fetches t + (if is_fetch ev then 1 else 0).
Proof.
  unfold fetches. rewrite List.filter_app, length_app. simpl.
  destruct (is_fetch ev); reflexivity.
Qed.

Lemma get_s3_index_load (E : Env) (w : World) (entries : gmap string bytes) :
  dirs w !! STORAGE_DIR E = Some entries ->
  entries <> ∅ ->
  get_s3_index E w
  = (load_index_from_storage E entries,
     emit_in (EvLoadSnapshot (STORAGE_DIR E)) w).
Proof.
  intros Hdir Hne. unfold get_s3_index, bind, iterdir. rewrite Hdir.
  rewrite bool_decide_eq_false_2 by exact Hne. simpl.
  unfold lift. destruct (load_index_from_storage E entries); reflexivity.
Qed.

Lemma get_s3_index_build (E : Env) (w : World) :
  dirs w !! STORAGE_DIR E = Some ∅ ->
  get_s3_index E w
  = (let* documents := lift (s3_load_data E) in
     emit EvBuildIndex;;
     let* index := lift (from_documents E documents) in
     emit (EvPersist (STORAGE_DIR E));;
     let* files := lift (persist_files E index) in
     (fun w => (Ok tt, set_dirs (<[STORAGE_DIR E := files ∪ ∅]> (dirs w)) w));;
     ret index) (emit_in EvS3Fetch w).
Proof.
  intros Hdir. unfold get_s3_index at 1. unfold bind at 1. unfold iterdir.
  rewrite Hdir. rewrite bool_decide_eq_true_2 by reflexivity. reflexivity.
Qed.

(** C4. [get_s3_index] on an existing snapshot directory.  If the
    directory is non-empty, the result is whatever deserializing its
    files gives and object storage is not contacted: the only call is
    the load and the number of fetches in the trace is unchanged.
    If it is empty, object storage is fetched first, and when fetching,
    building and persisting succeed the function returns the index built
    from the fetched documents with the persisted files already in the
    snapshot directory. *)
Theorem get_s3_index_load_or_build (E : Env) (w : World)
    (entries : gmap string bytes) :
  dirs w !! STORAGE_DIR E = Some entries ->
  (entries <> ∅ ->
     get_s3_index E w
     = (load_index_from_storage E entries,
        emit_in (EvLoadSnapshot (STORAGE_DIR E)) w)
     /\ fetches (trace (get_s3_index E w).2) = fetches (trace w))
  /\ (entries = ∅ ->
        (exists t, trace (get_s3_index E w).2 = (trace w ++ EvS3Fetch :: t)%list)
        /\ forall documents index files,
             s3_load_data E = Ok documents ->
             from_documents E documents = Ok index ->
             persist_files E index = Ok files ->
             get_s3_index E w
             = (Ok index,
                mkWorld (<[STORAGE_DIR E := files]> (dirs w)) (tmp_counter w)
                        (trace w ++ [EvS3Fetch; EvBuildIndex;
                                     EvPersist (STORAGE_DIR E)])%list)).
Proof.
  intros Hdir. split.
  - intros Hne. rewrite (get_s3_index_load E w entries Hdir Hne).
    split; [reflexivity |]. simpl. rewrite fetches_snoc. simpl. lia.
  - intros ->. rewrite (get_s3_index_build E w Hdir). split.
    + unfold bind, lift, emit, ret.
      destruct (s3_load_data E) as [docs|e]; simpl; [| by exists []].
      destruct (from_documents E docs) as [idx|e]; simpl.
      2:{ exists [EvBuildIndex]. by rewrite <- app_assoc. }
      destruct (persist_files E idx) as [files|e]; simpl;
        exists [EvBuildIndex; EvPersist (STORAGE_DIR E)];
        by rewrite <- !app_assoc.
    + intros docs idx files Hdocs Hidx Hfiles.
      unfold bind, lift, emit, ret. rewrite Hdocs. simpl. rewrite Hidx. simpl.
      rewrite Hfiles. simpl. unfold set_dirs, emit_in. simpl.
      rewrite (right_id_L ∅ (∪)). rewrite <- !app_assoc. reflexivity.
Qed.

Lemma get_s3_index_load_or_build_witness :
  (get_s3_index Lab.env Lab.seeded
   = (Ok [("snapshot.pdf", [])],
      emit_in (EvLoadSnapshot "/srv/folio/storage") Lab.seeded)
   /\ fetches (trace (get_s3_index Lab.env Lab.seeded).2) = 0)
  /\ get_s3_index Lab.env Lab.fresh
     = (Ok [("corpus.pdf", [])],
        mkWorld {[ "/srv/folio/storage" :=
                   {[ "docstore.json" := []; "index_store.json" := [] ]} ]} 0
                [EvS3Fetch; EvBuildIndex; EvPersist "/srv/folio/storage"]).
Proof.
  split.
  - apply (proj1 (get_s3_index_load_or_build
                    Lab.env Lab.seeded {[ "docstore.json" := [] ]} eq_refl)).
    apply map_non_empty_singleton.
  - rewrite (proj2 (proj2 (get_s3_index_load_or_build
                             Lab.env Lab.fresh ∅ eq_refl) eq_refl)
                   [("corpus.pdf", [])] [("corpus.pdf", [])]
                   {[ "docstore.json" := []; "index_store.json" := [] ]}
                   eq_refl eq_refl eq_refl).
    vm_compute. reflexivity.
Defined.

(** The cleanup of [build_pdf_index] never raises. *)
Lemma rmtree_ignore_errors_run (E : Env) (dir : string) (w : World) :
  rmtree_ignore_errors E dir w
  = (Ok tt,
     if rmtree_ok E dir
     then set_dirs (delete dir (dirs w)) (emit_in (EvRmtree dir) w)
     else emit_in (EvRmtree dir) w).
Proof.
  unfold rmtree_ignore_errors, bind, emit, ret.
  destruct (rmtree_ok E dir); reflexivity.
Qed.

Lemma try_finally_rmtree {A} (E : Env) (body : M A) (dir : string)
    (w : World) (outcome : result A) (w2 : World) :
  body w = (outcome, w2) ->
  try_finally body (rmtree_ignore_errors E dir) w
  = (outcome,
     if rmtree_ok E dir
     then set_dirs (delete dir (dirs w2)) (emit_in (EvRmtree dir) w2)
     else emit_in (EvRmtree dir) w2).
Proof.
  intros Hbody. unfold try_finally. rewrite Hbody.
  rewrite rmtree_ignore_errors_run. reflexivity.
Qed.

(** C5. Once [build_pdf_index] has created its temporary directory, the
    outcome of the call is the outcome of the extraction block, be it an
    index or any exception raised in it, and the removal of the
    directory is the last thing done: the trace ends with it.  If the
    operating system carries the removal out, the directory no longer
    exists afterwards; if it does not, nothing is raised for it and the
    directories are left as the extraction block left them. *)
Theorem build_pdf_index_removes_tmp_dir (E : Env) (pdf_files : pyval)
    (w : World) (n : nat) (tmp_dir : string) (w1 : World) :
  py_len pdf_files = Ok n ->
  mkdtemp E w = (Ok tmp_dir, w1) ->
  exists outcome w2,
    extract_and_index E tmp_dir pdf_files w1 = (outcome, w2)
    /\ dirs w1 !! tmp_dir = Some ∅
    /\ (build_pdf_index E pdf_files w).1 = outcome
    /\ trace (build_pdf_index E pdf_files w).2
       = (trace w2 ++ [EvRmtree tmp_dir])%list
    /\ (rmtree_ok E tmp_dir = true ->
        dirs (build_pdf_index E pdf_files w).2 !! tmp_dir = None)
    /\ (rmtree_ok E tmp_dir = false ->
        dirs (build_pdf_index E pdf_files w).2 = dirs w2).
Proof.
  intros Hlen Hmk.
  destruct (extract_and_index E tmp_dir pdf_files w1) as [outcome w2] eqn:Hbody.
  exists outcome, w2. split; [reflexivity |].
  assert (build_pdf_index E pdf_files w
          = (outcome,
             if rmtree_ok E tmp_dir
             then set_dirs (delete tmp_dir (dirs w2)) (emit_in (EvRmtree tmp_dir) w2)
             else emit_in (EvRmtree tmp_dir) w2)) as ->.
  { unfold build_pdf_index.
    rewrite (bind_run_Ok _ _ w n w) by (unfold lift; by rewrite Hlen).
    rewrite (bind_run_Ok _ _ w tmp_dir w1 Hmk).
    apply try_finally_rmtree, Hbody. }
  apply mkdtemp_Ok in Hmk as [_ ->]. simpl.
  split; [apply lookup_insert_eq |]. split; [reflexivity |].
  destruct (rmtree_ok E tmp_dir); simpl.
  - split; [reflexivity |]. split; [intros _; apply lookup_delete_eq | discriminate].
  - split; [reflexivity |]. split; [discriminate | reflexivity].
Qed.

(** A decode failure in the second of two uploads: the exception comes
    out of [build_pdf_index] and the temporary directory is gone. *)
Lemma build_pdf_index_removes_tmp_dir_witness :
  exists outcome w2,
    extract_and_index Lab.env "/tmp/tmp0" (PList [Lab.paper; Lab.broken])
      (mkWorld {[ "/tmp/tmp0" := ∅; "/srv/folio/storage" := ∅ ]} 1
               [EvMkdtemp "/tmp/tmp0"])
    = (outcome, w2)
    /\ (build_pdf_index Lab.env (PList [Lab.paper; Lab.broken]) Lab.fresh).1
       = Raise BinasciiError
    /\ (build_pdf_index Lab.env (PList [Lab.paper; Lab.broken]) Lab.fresh).1
       = outcome
    /\ trace (build_pdf_index Lab.env (PList [Lab.paper; Lab.broken]) Lab.fresh).2
       = (trace w2 ++ [EvRmtree "/tmp/tmp0"])%list
    /\ dirs (build_pdf_index Lab.env (PList [Lab.paper; Lab.broken]) Lab.fresh).2
         !! "/tmp/tmp0" = None.
Proof.
  destruct (build_pdf_index_removes_tmp_dir
              Lab.env (PList [Lab.paper; Lab.broken]) Lab.fresh 2 "/tmp/tmp0"
              (mkWorld {[ "/tmp/tmp0" := ∅; "/srv/folio/storage" := ∅ ]} 1
                       [EvMkdtemp "/tmp/tmp0"]))
    as (outcome & w2 & Hbody & _ & Hout & Htrace & Hgone & _).
  - reflexivity.
  - vm_compute. reflexivity.
  - exists outcome, w2. split; [exact Hbody |].
    split; [vm_compute; reflexivity |].
    split; [exact Hout |]. split; [exact Htrace |].
    apply Hgone. reflexivity.
Defined.

(** The same upload under an operating system that refuses the removal:
    the decode error is still the outcome, nothing else is raised. *)
Example removal_failure_is_swallowed :
  (build_pdf_index Lab.sticky (PList [Lab.broken]) Lab.fresh).1
  = Raise BinasciiError
  /\ is_Some (dirs (build_pdf_index Lab.sticky (PList [Lab.broken]) Lab.fresh).2
               !! "/tmp/tmp0").
Proof.
  split; [vm_compute; reflexivity |].
  eexists. vm_compute. reflexivity.
Qed.

(** ** The claims about the request handler *)

(** Invoking the workflow is visible in the trace: its first step is
    the entry into the retrieval node. *)
Lemma rag_graph_enters_retrieve (E : Env) (input : gmap string pyval) (w : World) :
  rag_graph E input w
  = (let* state := (let* update := retrieve E input in ret (update ∪ input)) in
     run_node "generate" (generate_answer E) state)
      (emit_in (EvNode "retrieve") w).
Proof. reflexivity. Qed.

(** C6. A body without a question, or with the empty string as
    question, is answered with status 400 and the body
    [{"error": "No question provided"}]; the world is left as it was, so
    neither the retrieval stage nor anything else has been called: no
    node of the workflow has been entered. *)
Theorem get_response_rejects_no_question (E : Env) (d : gmap string pyval)
    (w : World) :
  d !! "question" = None \/ d !! "question" = Some (PStr "") ->
  get_response E (PDict d) w
  = (Ok (400, PDict {[ "error" := PStr "No question provided" ]}), w)
  /\ node_entries (trace (get_response E (PDict d) w).2)
     = node_entries (trace w).
Proof.
  intros Hq.
  assert (get_response E (PDict d) w
          = (Ok (400, PDict {[ "error" := PStr "No question provided" ]}), w))
    as ->.
  { destruct Hq as [Hq | Hq]; unfold get_response, bind, lift, py_get;
      rewrite Hq; reflexivity. }
  split; reflexivity.
Qed.

Lemma get_response_rejects_no_question_witness :
  get_response Lab.env (PDict Lab.empty_question) Lab.fresh
  = (Ok (400, PDict {[ "error" := PStr "No question provided" ]}), Lab.fresh)
  /\ node_entries
       (trace (get_response Lab.env (PDict Lab.empty_question) Lab.fresh).2) = 0.
Proof.
  apply (get_response_rejects_no_question Lab.env Lab.empty_question Lab.fresh).
  right. reflexivity.
Defined.

Lemma get_response_run (E : Env) (d : gmap string pyval) (w : World)
    (question : pyval) :
  d !! "question" = Some question ->
  truthy question = true ->
  get_response E (PDict d) w
  = (let* result :=
       rag_graph E
         (initial_state question (default (PList []) (d !! "pdf_files"))
            (match d !! "use_s3" with
             | Some supplied => supplied
             | None => PBool (negb (truthy (default (PList []) (d !! "pdf_files"))))
             end)) in
     let* response := getitem result "response" in
     ret (200, success_body response)) w.
Proof.
  intros Hq Ht.
  unfold get_response. unfold bind at 1. unfold lift, py_get.
  rewrite Hq, Ht. simpl negb. cbv iota. unfold bind at 1.
  unfold bind at 1.
  destruct (d !! "pdf_files"), (d !! "use_s3"); reflexivity.
Qed.

(** C7. For a body with a question, the state handed to the workflow
    carries as [use_s3] the supplied value unchanged when the body has a
    [use_s3] key, and otherwise [False] when [pdf_files] is non-empty and
    [True] when it is empty or absent. *)
Theorem get_response_default_use_s3 (E : Env) (d : gmap string pyval)
    (w : World) (question : pyval) :
  d !! "question" = Some question ->
  truthy question = true ->
  let pdf_files := default (PList []) (d !! "pdf_files") in
  let flag := match d !! "use_s3" with
              | Some supplied => supplied
              | None => PBool (negb (truthy pdf_files))
              end in
  get_response E (PDict d) w
  = (let* result := rag_graph E (initial_state question pdf_files flag) in
     let* response := getitem result "response" in
     ret (200, success_body response)) w
  /\ initial_state question pdf_files flag !! "use_s3" = Some flag
  /\ (d !! "use_s3" = None -> truthy pdf_files = true -> flag = PBool false)
  /\ (d !! "use_s3" = None -> truthy pdf_files = false -> flag = PBool true)
  /\ (forall supplied, d !! "use_s3" = Some supplied -> flag = supplied).
Proof.
  intros Hq Ht pdf_files flag. split; [| split; [| split; [| split]]].
  - subst flag pdf_files. apply get_response_run; assumption.
  - unfold initial_state. by simplify_map_eq.
  - intros Hnone Hpdf. subst flag. rewrite Hnone, Hpdf. reflexivity.
  - intros Hnone Hpdf. subst flag. rewrite Hnone, Hpdf. reflexivity.
  - intros supplied Hsome. subst flag. rewrite Hsome. reflexivity.
Qed.

Lemma get_response_default_use_s3_witness :
  get_response Lab.env (PDict Lab.upload_request) Lab.fresh
  = (let* result := rag_graph Lab.env
                      (initial_state (PStr "Summarize this")
                                     (PList [Lab.paper]) (PBool false)) in
     let* response := getitem result "response" in
     ret (200, success_body response)) Lab.fresh
  /\ get_response Lab.env (PDict Lab.plain_request) Lab.fresh
     = (let* result := rag_graph Lab.env
                         (initial_state (PStr "What is RAG?")
                                        (PList []) (PBool true)) in
        let* response := getitem result "response" in
        ret (200, success_body response)) Lab.fresh.
Proof.
  split.
  - apply (get_response_default_use_s3 Lab.env Lab.upload_request Lab.fresh
             (PStr "Summarize this")); reflexivity.
  - apply (get_response_default_use_s3 Lab.env Lab.plain_request Lab.fresh
             (PStr "What is RAG?")); reflexivity.
Defined.

(** ** The claims about the generation stage and the workflow *)

Lemma generate_answer_run (E : Env) (state : gmap string pyval) (w : World)
    (context question : pyval) :
  state !! "context" = Some context ->
  state !! "question" = Some question ->
  generate_answer E state w
  = (match complete E (build_prompt (format_value E context)
                                    (format_value E question)) with
     | Ok response => Ok {[ "response" := PStr response ]}
     | Raise e => Raise e
     end,
     emit_in (EvComplete (build_prompt (format_value E context)
                                       (format_value E question))) w).
Proof.
  intros Hc Hq. unfold generate_answer, bind, getitem, lift, emit, ret.
  rewrite Hc, Hq. simpl.
  destruct (complete E _); reflexivity.
Qed.

Lemma generate_answer_Ok (E : Env) (state : gmap string pyval) w update w' :
  generate_answer E state w = (Ok update, w') ->
  exists response, update = {[ "response" := PStr response ]}.
Proof.
  intros H. unfold generate_answer in H. steps_Ok H.
  eexists. reflexivity.
Qed.

(** C9. The prompt sent to the language model is the fixed template
    with the context and the question of the state substituted, a string
    being substituted verbatim; the prompt is sent whatever the model
    then answers, and the completion becomes the [response] of the
    state. *)
Theorem generate_answer_prompt (E : Env) (state : gmap string pyval)
    (w : World) (context question : pyval) :
  state !! "context" = Some context ->
  state !! "question" = Some question ->
  let prompt := PROMPT_HEAD +:+ format_value E context +:+ PROMPT_MID
                +:+ format_value E question +:+ PROMPT_TAIL in
  (forall s, format_value E (PStr s) = s)
  /\ (generate_answer E state w).2 = emit_in (EvComplete prompt) w
  /\ (forall response,
        complete E prompt = Ok response ->
        generate_answer E state w
        = (Ok {[ "response" := PStr response ]}, emit_in (EvComplete prompt) w)
        /\ run_node "generate" (generate_answer E) state w
           = (Ok (<[ "response" := PStr response ]> state),
              emit_in (EvComplete prompt) (emit_in (EvNode "generate") w)))
  /\ (forall e,
        complete E prompt = Raise e ->
        (generate_answer E state w).1 = Raise e).
Proof.
  intros Hc Hq prompt.
  pose proof (generate_answer_run E state w context question Hc Hq) as Hrun.
  fold (build_prompt (format_value E context) (format_value E question)) in prompt.
  split; [reflexivity |]. split; [by rewrite Hrun |]. split.
  - intros response Hresp. subst prompt. rewrite Hresp in Hrun.
    split; [exact Hrun |].
    pose proof (generate_answer_run E state (emit_in (EvNode "generate") w)
                  context question Hc Hq) as Hnode.
    rewrite Hresp in Hnode.
    unfold run_node.
    rewrite (bind_run_Ok _ _ w tt (emit_in (EvNode "generate") w)) by reflexivity.
    rewrite (bind_run_Ok _ _ _ _ _ Hnode). unfold ret.
    rewrite insert_union_singleton_l. reflexivity.
  - intros e He. subst prompt. rewrite He in Hrun. by rewrite Hrun.
Qed.

Lemma generate_answer_prompt_witness :
  generate_answer Lab.env
    (<[ "context" := PStr "No context available." ]> Lab.no_source) Lab.fresh
  = (Ok {[ "response" := PStr "An answer." ]},
     emit_in
       (EvComplete
          (NL +:+ "    You are an expert research assistant. Use the provided context AND your general knowledge."
              +:+ NL +:+ "    Context: No context available."
              +:+ NL +:+ "    Question: What is RAG?"
              +:+ NL +:+ "    Answer:"))
       Lab.fresh).
Proof.
  assert ((<[ "context" := PStr "No context available." ]> Lab.no_source
           : gmap string pyval) !! "context"
          = Some (PStr "No context available.")) as Hcontext
    by (vm_compute; reflexivity).
  assert ((<[ "context" := PStr "No context available." ]> Lab.no_source
           : gmap string pyval) !! "question"
          = Some (PStr "What is RAG?")) as Hquestion
    by (vm_compute; reflexivity).
  apply (generate_answer_prompt Lab.env _ Lab.fresh _ _ Hcontext Hquestion).
  reflexivity.
Defined.

(** C10. The update of the retrieval node has the single key [context],
    that of the generation node the single key [response]; the workflow
    therefore leaves every other key of the state as it was, in
    particular [question], [pdf_files] and [use_s3]. *)
Theorem nodes_update_only_their_field (E : Env) (state : gmap string pyval)
    (w : World) :
  (forall update w',
     retrieve E state w = (Ok update, w') -> dom update = {[ "context" ]})
  /\ (forall update w',
        generate_answer E state w = (Ok update, w') ->
        dom update = {[ "response" ]})
  /\ (forall final w',
        rag_graph E state w = (Ok final, w') ->
        final !! "question" = state !! "question"
        /\ final !! "pdf_files" = state !! "pdf_files"
        /\ final !! "use_s3" = state !! "use_s3"
        /\ forall key, key <> "context" -> key <> "response" ->
                       final !! key = state !! key).
Proof.
  split; [| split].
  - intros update w' H. apply retrieve_update_shape in H as (c & -> & _).
    apply dom_singleton_L.
  - intros update w' H. apply generate_answer_Ok in H as (r & ->).
    apply dom_singleton_L.
  - intros final w' H.
    assert (forall key, key <> "context" -> key <> "response" ->
                        final !! key = state !! key) as Hframe.
    { unfold rag_graph in H. apply bind_Ok in H as (mid & w1 & Hret & Hgen).
      unfold run_node in Hret, Hgen.
      apply bind_Ok in Hret as (? & w2 & _ & Hret).
      apply bind_Ok in Hret as (u1 & w3 & Hret & Hmid).
      apply ret_Ok in Hmid as [-> ->].
      apply bind_Ok in Hgen as (? & w4 & _ & Hgen).
      apply bind_Ok in Hgen as (u2 & w5 & Hgen & Hfin).
      apply ret_Ok in Hfin as [-> ->].
      apply retrieve_update_shape in Hret as (c & -> & _).
      apply generate_answer_Ok in Hgen as (r & ->).
      intros key Hc Hr.
      rewrite lookup_union_r by (by apply lookup_singleton_ne).
      rewrite lookup_union_r by (by apply lookup_singleton_ne).
      reflexivity. }
    split; [apply Hframe; discriminate |].
    split; [apply Hframe; discriminate |].
    split; [apply Hframe; discriminate | exact Hframe].
Qed.

Lemma nodes_update_only_their_field_witness :
  exists final w',
    rag_graph Lab.env Lab.both_sources Lab.seeded = (Ok final, w')
    /\ final !! "question" = Some (PStr "What is RAG?")
    /\ final !! "pdf_files" = Some (PList [Lab.paper])
    /\ final !! "use_s3" = Some (PBool true).
Proof.
  assert (exists final w',
            rag_graph Lab.env Lab.both_sources Lab.seeded = (Ok final, w'))
    as (final & w' & Hrun).
  { eexists _, _. vm_compute. reflexivity. }
  destruct (proj2 (proj2 (nodes_update_only_their_field
                            Lab.env Lab.both_sources Lab.seeded))
                  final w' Hrun) as (Hq & Hp & Hu & _).
  exists final, w'. split; [exact Hrun |].
  rewrite Hq, Hp, Hu. repeat split; reflexivity.
Defined.

(** ** An upload that does not decode *)

Lemma completions_app (t t' : list Event) :
  completions (t ++ t')%list = completions t + completions t'.
Proof. unfold completions. by rewrite List.filter_app, length_app. Qed.

Section Undecodable.

Context (E : Env).
Context (file : gmap string pyval) (name : string) (data : pyval) (e : exn).
Hypothesis Hname : file !! "name" = Some (PStr name).
Hypothesis Hdata : file !! "data" = Some data.
Hypothesis Hdecode : b64decode E data = Raise e.

(** The loop stops at the file: it has been opened, nothing has been
    written. *)
Lemma write_pdfs_undecodable (tmp_dir : string) (rest : list pyval) (w1 : World) :
  exists e' w2,
    write_pdfs E tmp_dir (PDict file :: rest) w1 = (Raise e', w2)
    /\ trace w2 = (trace w1 ++ [EvOpen (path_join tmp_dir name)])%list
    /\ (fs_open E (path_join tmp_dir name) = Ok tt ->
        is_Some (dirs w1 !! tmp_dir) -> e' = e).
Proof.
  cbn [write_pdfs]. unfold bind at 1. unfold lift at 1. cbn [subscript].
  rewrite Hname. cbv iota beta. unfold bind at 1.
  unfold open_wb, bind at 1, emit. unfold bind at 1. unfold lift at 1.
  destruct (fs_open E (path_join tmp_dir name)) as [[]|e0].
  2:{ eexists _, _. split; [reflexivity |]. split; [reflexivity |]. done. }
  destruct (plain_name name) eqn:Hplain.
  - cbn [dirs emit_in]. destruct (dirs w1 !! tmp_dir) as [files|] eqn:Hdir.
    + unfold bind, lift. cbn [subscript]. rewrite Hdata, Hdecode.
      eexists _, _. split; [reflexivity |]. split; [reflexivity |]. done.
    + eexists _, _. split; [reflexivity |]. split; [reflexivity |].
      intros _ [? ?]. discriminate.
  - unfold bind, lift, ret. cbn [subscript]. rewrite Hdata, Hdecode.
    eexists _, _. split; [reflexivity |]. split; [reflexivity |]. done.
Qed.

Lemma build_pdf_index_undecodable (w : World) :
  exists e' w',
    build_pdf_index E (PList [PDict file]) w = (Raise e', w')
    /\ completions (trace w') = completions (trace w)
    /\ forall tmp_dir,
         tmp_candidate E (tmp_counter w) = Ok tmp_dir ->
         dirs w !! tmp_dir = None ->
         trace w' = (trace w ++ [EvMkdtemp tmp_dir;
                                 EvOpen (path_join tmp_dir name);
                                 EvRmtree tmp_dir])%list
         /\ (fs_open E (path_join tmp_dir name) = Ok tt -> e' = e)
         /\ (rmtree_ok E tmp_dir = true -> dirs w' !! tmp_dir = None).
Proof.
  unfold build_pdf_index.
  rewrite (bind_run_Ok _ _ w 1 w) by reflexivity.
  destruct (mkdtemp E w) as [[tmp_dir|e0] w1] eqn:Hmk.
  2:{ rewrite (bind_run_Raise _ _ _ _ _ Hmk).
      unfold mkdtemp in Hmk.
      destruct (tmp_candidate E (tmp_counter w)) as [d|] eqn:Hcand.
      - destruct (dirs w !! d) eqn:Hd; [| discriminate].
        injection Hmk as <- <-.
        eexists _, w. split; [reflexivity |]. split; [reflexivity |].
        intros ? [= <-] ?. congruence.
      - injection Hmk as <- <-.
        eexists _, w. split; [reflexivity |]. split; [reflexivity |].
        intros ? [=]. }
  rewrite (bind_run_Ok _ _ _ _ _ Hmk).
  destruct (write_pdfs_undecodable tmp_dir [] w1) as (e' & w2 & Hloop & Htr & He').
  assert (extract_and_index E tmp_dir (PList [PDict file]) w1 = (Raise e', w2))
    as Hbody.
  { unfold extract_and_index.
    rewrite (bind_run_Ok _ _ w1 [PDict file] w1) by reflexivity.
    apply bind_run_Raise, Hloop. }
  rewrite (try_finally_rmtree E _ tmp_dir w1 _ w2 Hbody).
  pose proof Hmk as Hcand. unfold mkdtemp in Hcand.
  destruct (tmp_candidate E (tmp_counter w)) as [d|] eqn:Hd; [| discriminate].
  destruct (dirs w !! d); [discriminate |]. injection Hcand as -> _.
  apply mkdtemp_Ok in Hmk as [Hfresh ->]. cbn [trace dirs] in *.
  eexists _, _. split; [reflexivity |].
  assert (forall w0 : World,
            trace (if rmtree_ok E tmp_dir
                   then set_dirs (delete tmp_dir (dirs w0)) (emit_in (EvRmtree tmp_dir) w0)
                   else emit_in (EvRmtree tmp_dir) w0)
            = (trace w0 ++ [EvRmtree tmp_dir])%list) as Hend.
  { intros w0. destruct (rmtree_ok E tmp_dir); reflexivity. }
  split.
  - rewrite Hend, Htr, !completions_app. cbn. lia.
  - intros d' [= <-] _. split; [| split].
    + rewrite Hend, Htr, <- !app_assoc. reflexivity.
    + intros Hopen. apply He'; [exact Hopen |].
      rewrite lookup_insert_eq. by eexists.
    + intros ->. cbn. apply lookup_delete_eq.
Qed.

End Undecodable.

Lemma retrieve_uploads_Raise (E : Env) (state : gmap string pyval)
    (pdf_files : pyval) contexts w e w' :
  state !! "pdf_files" = Some pdf_files ->
  truthy pdf_files = true ->
  build_pdf_index E pdf_files w = (Raise e, w') ->
  retrieve_uploads E state contexts w = (Raise e, w').
Proof.
  intros Hst Ht Hbuild. unfold retrieve_uploads.
  rewrite Hst. cbn [default from_option id]. rewrite Ht.
  unfold getitem at 1. rewrite Hst.
  rewrite (bind_run_Ok _ _ w pdf_files w) by reflexivity.
  apply bind_run_Raise, Hbuild.
Qed.

(** An exception of [build_pdf_index] comes out of the handler. *)
Lemma get_response_upload_failure (E : Env) (d : gmap string pyval)
    (question pdf_files : pyval) (w : World) (e : exn) (w' : World) :
  d !! "question" = Some question ->
  truthy question = true ->
  d !! "pdf_files" = Some pdf_files ->
  truthy pdf_files = true ->
  build_pdf_index E pdf_files (emit_in (EvNode "retrieve") w) = (Raise e, w') ->
  get_response E (PDict d) w = (Raise e, w').
Proof.
  intros Hq Htq Hp Htp Hbuild.
  rewrite (get_response_run E d w question Hq Htq).
  apply bind_run_Raise. unfold rag_graph.
  apply bind_run_Raise. unfold run_node.
  rewrite (bind_run_Ok _ _ w tt (emit_in (EvNode "retrieve") w)) by reflexivity.
  apply bind_run_Raise. unfold retrieve.
  apply bind_run_Raise. rewrite Hp. cbn [default from_option id].
  apply retrieve_uploads_Raise with (pdf_files := pdf_files);
    [unfold initial_state; by simplify_map_eq | exact Htp | exact Hbuild].
Qed.

(** C8, as it holds of the code.  A request with a question, one upload
    whose data [base64.b64decode] rejects, and [use_s3] false is not
    answered: the handler ends with an exception, the language model is
    not called, and no context is composed.  When the temporary
    directory can be created, the only calls after entering the
    retrieval node are its creation, the opening of the file and the
    removal of the directory; the exception is the decoder's when the
    file could be opened. *)
Theorem undecodable_upload_fails_request (E : Env) (d file : gmap string pyval)
    (question : pyval) (name : string) (data : pyval) (e : exn) (w : World) :
  d !! "question" = Some question ->
  truthy question = true ->
  d !! "pdf_files" = Some (PList [PDict file]) ->
  d !! "use_s3" = Some (PBool false) ->
  file !! "name" = Some (PStr name) ->
  file !! "data" = Some data ->
  b64decode E data = Raise e ->
  exists e' w',
    get_response E (PDict d) w = (Raise e', w')
    /\ completions (trace w') = completions (trace w)
    /\ forall tmp_dir,
         tmp_candidate E (tmp_counter w) = Ok tmp_dir ->
         dirs w !! tmp_dir = None ->
         trace w' = (trace w ++ [EvNode "retrieve";
                                 EvMkdtemp tmp_dir;
                                 EvOpen (path_join tmp_dir name);
                                 EvRmtree tmp_dir])%list
         /\ (fs_open E (path_join tmp_dir name) = Ok tt -> e' = e)
         /\ (rmtree_ok E tmp_dir = true -> dirs w' !! tmp_dir = None).
Proof.
  intros Hq Htq Hp _ Hname Hdata Hdecode.
  destruct (build_pdf_index_undecodable E file name data e Hname Hdata Hdecode
              (emit_in (EvNode "retrieve") w))
    as (e' & w' & Hbuild & Hcount & Hcalls).
  exists e', w'. split; [| split].
  - eapply get_response_upload_failure; try eassumption. reflexivity.
  - rewrite Hcount. cbn [trace emit_in]. rewrite completions_app. cbn. lia.
  - intros tmp_dir Hcand Hfresh.
    destruct (Hcalls tmp_dir Hcand Hfresh) as (Htrace & Herr & Hgone).
    split; [| split; assumption].
    rewrite Htrace. cbn [trace emit_in]. rewrite <- app_assoc. reflexivity.
Qed.

Lemma undecodable_upload_fails_request_witness :
  exists e' w',
    get_response Lab.env (PDict Lab.broken_request) Lab.fresh = (Raise e', w')
    /\ completions (trace w') = 0
    /\ trace w' = [EvNode "retrieve"; EvMkdtemp "/tmp/tmp0";
                   EvOpen "/tmp/tmp0/broken.pdf"; EvRmtree "/tmp/tmp0"]
    /\ e' = BinasciiError
    /\ dirs w' !! "/tmp/tmp0" = None.
Proof.
  destruct (undecodable_upload_fails_request
              Lab.env Lab.broken_request
              {[ "name" := PStr "broken.pdf"; "data" := PStr "JVBERi0" ]}
              (PStr "Summarize this") "broken.pdf" (PStr "JVBERi0")
              BinasciiError Lab.fresh
              eq_refl eq_refl eq_refl eq_refl eq_refl eq_refl eq_refl)
    as (e' & w' & Hrun & Hcount & Hcalls).
  destruct (Hcalls "/tmp/tmp0" eq_refl eq_refl) as (Htrace & Herr & Hgone).
  exists e', w'. split; [exact Hrun |]. split; [exact Hcount |].
  split; [exact Htrace |]. split; [apply Herr; reflexivity |].
  apply Hgone. reflexivity.
Defined.

(** C8 as worded fails: the undecodable upload is not skipped.  The
    request ends with the decoder's exception, the language model is
    never called, and no response is produced. *)
Lemma undecodable_upload_not_skipped :
  b64decode Lab.env (PStr "JVBERi0") = Raise BinasciiError
  /\ (get_response Lab.env (PDict Lab.broken_request) Lab.fresh).1
     = Raise BinasciiError
  /\ trace (get_response Lab.env (PDict Lab.broken_request) Lab.fresh).2
     = [EvNode "retrieve"; EvMkdtemp "/tmp/tmp0";
        EvOpen "/tmp/tmp0/broken.pdf"; EvRmtree "/tmp/tmp0"]
  /\ completions
       (trace (get_response Lab.env (PDict Lab.broken_request) Lab.fresh).2) = 0.
Proof.
  split; [reflexivity |].
  split; [vm_compute; reflexivity |].
  split; vm_compute; reflexivity.
Qed.

(** ** A request answered from the snapshot *)

(** A question without uploads and without [use_s3]: the snapshot is
    loaded, object storage is not fetched, the prompt carries the
    retrieved context and the question, and the answer is returned with
    status 200. *)
Example plain_request_end_to_end :
  get_response Lab.env (PDict Lab.plain_request) Lab.seeded
  = (Ok (200, PDict {[ "status" := PStr "success";
                       "response" := PStr "An answer." ]}),
     mkWorld (dirs Lab.seeded) 0
       [EvNode "retrieve";
        EvLoadSnapshot "/srv/folio/storage";
        EvQuery (PStr "What is RAG?");
        EvNode "generate";
        EvComplete
          (NL +:+ "    You are an expert research assistant. Use the provided context AND your general knowledge."
              +:+ NL +:+ "    Context: [S3 Documents]" +:+ NL +:+ "snapshot.pdf"
              +:+ NL +:+ "    Question: What is RAG?"
              +:+ NL +:+ "    Answer:")]).
Proof. vm_compute. reflexivity. Qed.

(** ** Which calls a request makes *)

Lemma counts_snoc (f : Event -> bool) (n : nat) (w : World) (ev : Event) :
  f ev = false -> counts f n w -> counts f n (emit_in ev w).
Proof.
  unfold counts. cbn. intros Hf Hw.
  rewrite List.filter_app, length_app. cbn. rewrite Hf. cbn. lia.
Qed.

Lemma counts_emit (f : Event -> bool) (n : nat) (ev : Event) :
  f ev = false -> preserves (counts f n) (emit ev).
Proof. intros Hf w Hw. by apply counts_snoc. Qed.

Lemma counts_getitem (f : Event -> bool) (n : nat)
    (state : gmap string pyval) key :
  preserves (counts f n) (getitem state key).
Proof. apply preserves_getitem. Qed.

Section UploadCounts.

Context (E : Env) (f : Event -> bool) (n : nat).
Hypothesis Hup : forall ev, upload_event ev = true -> f ev = false.

Lemma counts_mkdtemp : preserves (counts f n) (mkdtemp E).
Proof.
  intros w Hw. unfold mkdtemp.
  destruct (tmp_candidate E (tmp_counter w)) as [d|]; [| exact Hw].
  destruct (dirs w !! d); [exact Hw |].
  apply (counts_snoc f n w (EvMkdtemp d)); [by apply Hup | exact Hw].
Qed.

Lemma counts_open_wb dir name : preserves (counts f n) (open_wb E dir name).
Proof.
  unfold open_wb.
  apply preserves_bind; [apply counts_emit; by apply Hup | intros _].
  apply preserves_bind; [apply preserves_lift | intros _].
  destruct (plain_name name); [| apply preserves_ret].
  intros w Hw. destruct (dirs w !! dir); exact Hw.
Qed.

Lemma counts_write_file dir name data :
  preserves (counts f n) (write_file E dir name data).
Proof.
  unfold write_file.
  apply preserves_bind; [apply counts_emit; by apply Hup | intros _].
  apply preserves_bind; [apply preserves_lift | intros _].
  destruct (plain_name name); [| apply preserves_ret].
  intros w Hw. destruct (dirs w !! dir); exact Hw.
Qed.

Lemma counts_iterdir dir : preserves (counts f n) (iterdir dir).
Proof. intros w Hw. unfold iterdir. destruct (dirs w !! dir); exact Hw. Qed.

Lemma counts_rmtree dir : preserves (counts f n) (rmtree_ignore_errors E dir).
Proof.
  intros w Hw. rewrite rmtree_ignore_errors_run. cbn.
  destruct (rmtree_ok E dir); apply (counts_snoc f n w (EvRmtree dir));
    (by apply Hup) || exact Hw.
Qed.

#[local] Hint Resolve counts_mkdtemp counts_open_wb counts_write_file
  counts_iterdir counts_rmtree counts_getitem : keeps.
#[local] Hint Extern 1 (preserves (counts _ _) (emit _)) =>
  apply counts_emit; apply Hup; reflexivity : keeps.

Lemma counts_write_pdfs tmp_dir pdfs :
  preserves (counts f n) (write_pdfs E tmp_dir pdfs).
Proof.
  induction pdfs as [|pdf rest IH]; cbn [write_pdfs]; auto 20 with keeps.
Qed.

#[local] Hint Resolve counts_write_pdfs : keeps.

Lemma counts_extract tmp_dir pdf_files :
  preserves (counts f n) (extract_and_index E tmp_dir pdf_files).
Proof. unfold extract_and_index. auto 20 with keeps. Qed.

Lemma counts_build_pdf_index pdf_files :
  preserves (counts f n) (build_pdf_index E pdf_files).
Proof.
  unfold build_pdf_index.
  apply preserves_bind; [apply preserves_lift | intros _].
  apply preserves_bind; [apply counts_mkdtemp | intros tmp_dir].
  apply preserves_try_finally; [apply counts_extract | apply counts_rmtree].
Qed.

#[local] Hint Resolve counts_build_pdf_index : keeps.

Lemma counts_retrieve_uploads state contexts :
  preserves (counts f n) (retrieve_uploads E state contexts).
Proof. unfold retrieve_uploads. auto 20 with keeps. Qed.

End UploadCounts.

Section SnapshotCounts.

Context (E : Env) (f : Event -> bool) (n : nat).
Hypothesis Hsn : forall ev, snapshot_event ev = true -> f ev = false.

#[local] Hint Extern 1 (preserves (counts _ _) (emit _)) =>
  apply counts_emit; apply Hsn; reflexivity : keeps.
#[local] Hint Resolve counts_getitem : keeps.

Lemma counts_get_s3_index : preserves (counts f n) (get_s3_index E).
Proof.
  unfold get_s3_index.
  apply preserves_bind; [apply counts_iterdir | intros entries].
  destruct (negb _); [auto 20 with keeps |].
  apply preserves_bind; [auto with keeps | intros _].
  apply preserves_bind; [apply preserves_lift | intros documents].
  apply preserves_bind; [auto with keeps | intros _].
  apply preserves_bind; [apply preserves_lift | intros index].
  apply preserves_bind; [auto with keeps | intros _].
  apply preserves_bind; [apply preserves_lift | intros files].
  apply preserves_bind; [| intros _; apply preserves_ret].
  intros w Hw. exact Hw.
Qed.

#[local] Hint Resolve counts_get_s3_index : keeps.

Lemma counts_retrieve_s3 state contexts :
  preserves (counts f n) (retrieve_s3 E state contexts).
Proof. unfold retrieve_s3. auto 20 with keeps. Qed.

End SnapshotCounts.

Lemma upload_event_not_completion ev :
  upload_event ev = true -> is_completion ev = false.
Proof. destruct ev; (reflexivity || discriminate). Qed.

Lemma snapshot_event_not_completion ev :
  snapshot_event ev = true -> is_completion ev = false.
Proof. destruct ev; (reflexivity || discriminate). Qed.

Lemma upload_event_not_corpus ev :
  upload_event ev = true -> touches_corpus ev = false.
Proof. destruct ev; (reflexivity || discriminate). Qed.

(** The retrieval stage never calls the language model. *)
Lemma retrieve_no_completion (E : Env) (state : gmap string pyval) (w : World) :
  completions (trace (retrieve E state w).2) = completions (trace w).
Proof.
  assert (preserves (counts is_completion (completions (trace w)))
                    (retrieve E state)) as H.
  { unfold retrieve.
    apply preserves_bind;
      [apply counts_retrieve_uploads, upload_event_not_completion | intros c1].
    apply preserves_bind;
      [apply counts_retrieve_s3, snapshot_event_not_completion | intros c2].
    apply preserves_ret. }
  apply (H w). reflexivity.
Qed.

Lemma completions_snoc (t : list Event) (ev : Event) :
  completions (t ++ [ev])%list
  = completions t + (if is_completion ev then 1 else 0).
Proof. rewrite completions_app. cbn. destruct (is_completion ev); reflexivity. Qed.

Lemma completions_emit_in (ev : Event) (w : World) :
  completions (trace (emit_in ev w))
  = completions (trace w) + (if is_completion ev then 1 else 0).
Proof. apply completions_snoc. Qed.

Lemma generate_answer_inv (E : Env) (state : gmap string pyval) w update w' :
  generate_answer E state w = (Ok update, w') ->
  exists context question response,
    state !! "context" = Some context
    /\ state !! "question" = Some question
    /\ complete E (build_prompt (format_value E context)
                                (format_value E question)) = Ok response
    /\ update = {[ "response" := PStr response ]}
    /\ w' = emit_in (EvComplete (build_prompt (format_value E context)
                                              (format_value E question))) w.
Proof.
  intros H.
  destruct (state !! "context") as [c|] eqn:Hc.
  2:{ unfold generate_answer, bind, getitem in H. rewrite Hc in H. discriminate. }
  destruct (state !! "question") as [q|] eqn:Hq.
  2:{ unfold generate_answer, bind, getitem in H. rewrite Hc, Hq in H.
      discriminate. }
  rewrite (generate_answer_run E state w c q Hc Hq) in H.
  destruct (complete E _) as [r|e] eqn:Hr; [| discriminate].
  injection H as <- <-. exists c, q, r. repeat split; assumption || reflexivity.
Qed.

Lemma generate_answer_completions (E : Env) (state : gmap string pyval) w :
  completions (trace (generate_answer E state w).2) <= completions (trace w) + 1.
Proof.
  destruct (state !! "context") as [c|] eqn:Hc.
  2:{ unfold generate_answer, bind, getitem. rewrite Hc. cbn. lia. }
  destruct (state !! "question") as [q|] eqn:Hq.
  2:{ unfold generate_answer, bind, getitem. rewrite Hc, Hq. cbn. lia. }
  rewrite (generate_answer_run E state w c q Hc Hq). cbn [snd].
  rewrite completions_emit_in. cbn [is_completion]. lia.
Qed.

Lemma run_retrieve_completions (E : Env) (state : gmap string pyval) w :
  completions (trace (run_node "retrieve" (retrieve E) state w).2)
  = completions (trace w).
Proof.
  unfold run_node.
  rewrite (bind_run_Ok _ _ w tt (emit_in (EvNode "retrieve") w)) by reflexivity.
  pose proof (retrieve_no_completion E state (emit_in (EvNode "retrieve") w))
    as Hret.
  rewrite completions_emit_in in Hret. cbn [is_completion] in Hret.
  rewrite Nat.add_0_r in Hret.
  unfold bind. destruct (retrieve E state _) as [[update|e] w1]; exact Hret.
Qed.

Lemma rag_graph_completions (E : Env) (input : gmap string pyval) w :
  completions (trace (rag_graph E input w).2) <= completions (trace w) + 1.
Proof.
  pose proof (run_retrieve_completions E input w) as Hret.
  unfold rag_graph. unfold bind at 1.
  destruct (run_node "retrieve" (retrieve E) input w) as [[state|e] w1];
    cbn [snd] in *; [| lia].
  unfold run_node.
  rewrite (bind_run_Ok _ _ w1 tt (emit_in (EvNode "generate") w1)) by reflexivity.
  pose proof (generate_answer_completions E state (emit_in (EvNode "generate") w1))
    as Hgen.
  rewrite completions_emit_in in Hgen. cbn [is_completion] in Hgen.
  unfold bind, ret. destruct (generate_answer E state _) as [[update|e] w2];
    cbn [snd] in *; lia.
Qed.




(** ** Requests the handler refuses or answers without retrieval *)

(** X3. Every falsy question is refused like a missing one: [null],
    [false], [0], the empty string, the empty list and the empty object
    all give status 400 with the error body, and nothing is called. *)
Theorem get_response_rejects_falsy_question (E : Env) (d : gmap string pyval)
    (w : World) :
  truthy (default PNone (d !! "question")) = false ->
  get_response E (PDict d) w
  = (Ok (400, PDict {[ "error" := PStr "No question provided" ]}), w).
Proof.
  intros Ht. unfold get_response, bind, lift, py_get.
  destruct (d !! "question") as [q|]; cbn in Ht |- *; [rewrite Ht |];
    reflexivity.
Qed.

Lemma get_response_rejects_falsy_question_witness :
  get_response Lab.env
    (PDict {[ "question" := PList []; "pdf_files" := PList [Lab.paper] ]})
    Lab.fresh
  = (Ok (400, PDict {[ "error" := PStr "No question provided" ]}), Lab.fresh).
Proof.
  apply (get_response_rejects_falsy_question Lab.env
           {[ "question" := PList []; "pdf_files" := PList [Lab.paper] ]}
           Lab.fresh).
  reflexivity.
Defined.

(** X4. A body that is not a JSON object has no [get] method: the
    handler raises [AttributeError] before anything is called, it does
    not answer 400. *)
Theorem get_response_non_object_body (E : Env) (data : pyval) (w : World) :
  (forall d, data <> PDict d) ->
  get_response E data w = (Raise AttributeError, w).
Proof.
  intros Hnot. destruct data as [| | | | |d]; try reflexivity.
  destruct (Hnot d). reflexivity.
Qed.

Lemma get_response_non_object_body_witness :
  get_response Lab.env (PList [PStr "What is RAG?"]) Lab.fresh
  = (Raise AttributeError, Lab.fresh).
Proof.
  apply (get_response_non_object_body Lab.env (PList [PStr "What is RAG?"])
           Lab.fresh).
  intros d. discriminate.
Defined.

Lemma retrieve_no_source (E : Env) (state : gmap string pyval) (w : World) :
  truthy (default PNone (state !! "pdf_files")) = false ->
  truthy (default (PBool true) (state !! "use_s3")) = false ->
  retrieve E state w = (Ok {[ "context" := PStr SENTINEL ]}, w).
Proof.
  intros Hpdf Hs3. unfold retrieve.
  rewrite (bind_run_Ok _ _ _ _ _ (retrieve_uploads_skip E state [] w Hpdf)).
  rewrite (bind_run_Ok _ _ _ _ _ (retrieve_s3_skip E state [] w Hs3)).
  reflexivity.
Qed.

(** X5. A request with a question, no uploads and a falsy [use_s3]
    touches neither disk nor object storage: the two nodes are entered,
    the language model is asked once, with the sentinel as context and
    the question, and its completion is the response; an exception of
    the model is the outcome of the request. *)
Theorem get_response_without_sources (E : Env) (d : gmap string pyval)
    (w : World) (question flag : pyval) :
  d !! "question" = Some question ->
  truthy question = true ->
  truthy (default (PList []) (d !! "pdf_files")) = false ->
  d !! "use_s3" = Some flag ->
  truthy flag = false ->
  get_response E (PDict d) w
  = (match complete E (build_prompt "No context available."
                                    (format_value E question)) with
     | Ok response =>
         Ok (200, PDict {[ "status" := PStr "success";
                           "response" := PStr response ]})
     | Raise e => Raise e
     end,
     mkWorld (dirs w) (tmp_counter w)
       (trace w ++ [EvNode "retrieve"; EvNode "generate";
                    EvComplete (build_prompt "No context available."
                                             (format_value E question))])%list).
Proof.
  intros Hq Ht Hpdf Hflag Hfalsy.
  rewrite (get_response_run E d w question Hq Ht). rewrite Hflag.
  set (pdf_files := default (PList []) (d !! "pdf_files")) in *.
  set (input := initial_state question pdf_files flag).
  assert (input !! "pdf_files" = Some pdf_files) as Hin_pdf
    by (unfold input, initial_state; by simplify_map_eq).
  assert (input !! "use_s3" = Some flag) as Hin_flag
    by (unfold input, initial_state; by simplify_map_eq).
  assert (input !! "question" = Some question) as Hin_q
    by (unfold input, initial_state; by simplify_map_eq).
  assert (run_node "retrieve" (retrieve E) input w
          = (Ok ({[ "context" := PStr SENTINEL ]} ∪ input),
             emit_in (EvNode "retrieve") w)) as Hret.
  { unfold run_node.
    rewrite (bind_run_Ok _ _ w tt (emit_in (EvNode "retrieve") w)) by reflexivity.
    rewrite (bind_run_Ok _ _ _ _ _
               (retrieve_no_source E input _
                  ltac:(by rewrite Hin_pdf) ltac:(by rewrite Hin_flag))).
    reflexivity. }
  set (mid := {[ "context" := PStr SENTINEL ]} ∪ input) in *.
  assert (mid !! "context" = Some (PStr SENTINEL)) as Hmid_c
    by (unfold mid; apply lookup_union_Some_l, lookup_singleton_eq).
  assert (mid !! "question" = Some question) as Hmid_q.
  { unfold mid. rewrite lookup_union_r by (by apply lookup_singleton_ne).
    exact Hin_q. }
  assert (rag_graph E input w
          = (match complete E (build_prompt "No context available."
                                            (format_value E question)) with
             | Ok response => Ok ({[ "response" := PStr response ]} ∪ mid)
             | Raise e => Raise e
             end,
             emit_in (EvComplete (build_prompt "No context available."
                                               (format_value E question)))
               (emit_in (EvNode "generate") (emit_in (EvNode "retrieve") w))))
    as Hrag.
  { unfold rag_graph. rewrite (bind_run_Ok _ _ _ _ _ Hret).
    unfold run_node.
    rewrite (bind_run_Ok _ _ _ tt (emit_in (EvNode "generate")
                                     (emit_in (EvNode "retrieve") w)))
      by reflexivity.
    unfold bind.
    rewrite (generate_answer_run E mid _ (PStr SENTINEL) question Hmid_c Hmid_q).
    cbn [format_value]. change SENTINEL with "No context available.".
    destruct (complete E _) as [r|e]; reflexivity. }
  unfold bind at 1. rewrite Hrag.
  destruct (complete E _) as [r|e].
  - unfold bind, getitem, ret.
    rewrite lookup_union_l' by (rewrite lookup_singleton_eq; by eexists).
    rewrite lookup_singleton_eq. unfold emit_in, success_body. cbn.
    rewrite <- !app_assoc. reflexivity.
  - unfold emit_in. cbn. rewrite <- !app_assoc. reflexivity.
Qed.

Lemma get_response_without_sources_witness :
  get_response Lab.env
    (PDict {[ "question" := PStr "What is RAG?"; "use_s3" := PBool false ]})
    Lab.fresh
  = (Ok (200, PDict {[ "status" := PStr "success";
                       "response" := PStr "An answer." ]}),
     mkWorld (dirs Lab.fresh) 0
       [EvNode "retrieve"; EvNode "generate";
        EvComplete (build_prompt "No context available." "What is RAG?")]).
Proof.
  apply (get_response_without_sources Lab.env
           {[ "question" := PStr "What is RAG?"; "use_s3" := PBool false ]}
           Lab.fresh (PStr "What is RAG?") (PBool false));
    reflexivity.
Defined.

(** ** What a request leaves alone *)

Lemma counts_generate_answer (E : Env) (f : Event -> bool) (n : nat)
    (state : gmap string pyval) :
  (forall prompt, f (EvComplete prompt) = false) ->
  preserves (counts f n) (generate_answer E state).
Proof.
  intros Hf. unfold generate_answer.
  apply preserves_bind; [apply counts_getitem | intros context].
  apply preserves_bind; [apply counts_getitem | intros question].
  apply preserves_bind; [apply counts_emit, Hf | intros _].
  apply preserves_bind; [apply preserves_lift | intros response].
  apply preserves_ret.
Qed.

Lemma counts_run_node (f : Event -> bool) (n : nat) (name : string)
    (node : gmap string pyval -> M (gmap string pyval))
    (state : gmap string pyval) :
  f (EvNode name) = false ->
  preserves (counts f n) (node state) ->
  preserves (counts f n) (run_node name node state).
Proof.
  intros Hf Hnode. unfold run_node.
  apply preserves_bind; [apply counts_emit, Hf | intros _].
  apply preserves_bind; [exact Hnode | intros update].
  apply preserves_ret.
Qed.

(** With the flag off, the workflow makes only calls of the upload
    branch, node entries and the completion. *)
Lemma counts_rag_graph_flag_off (E : Env) (f : Event -> bool) (n : nat)
    (input : gmap string pyval) :
  (forall ev, upload_event ev = true -> f ev = false) ->
  (forall name, f (EvNode name) = false) ->
  (forall prompt, f (EvComplete prompt) = false) ->
  truthy (default (PBool true) (input !! "use_s3")) = false ->
  preserves (counts f n) (rag_graph E input).
Proof.
  intros Hup Hnode Hcomplete Hflag. unfold rag_graph.
  apply preserves_bind.
  - apply counts_run_node; [apply Hnode |]. unfold retrieve.
    apply preserves_bind; [by apply counts_retrieve_uploads | intros c1].
    apply preserves_bind; [| intros c2; apply preserves_ret].
    unfold retrieve_s3. rewrite Hflag. apply preserves_ret.
  - intros state. apply counts_run_node; [apply Hnode |].
    by apply counts_generate_answer.
Qed.

Lemma counts_get_response_flag_off (E : Env) (f : Event -> bool)
    (d : gmap string pyval) (w : World) (question : pyval) :
  (forall ev, upload_event ev = true -> f ev = false) ->
  (forall name, f (EvNode name) = false) ->
  (forall prompt, f (EvComplete prompt) = false) ->
  d !! "question" = Some question ->
  truthy question = true ->
  truthy (match d !! "use_s3" with
          | Some supplied => supplied
          | None => PBool (negb (truthy (default (PList []) (d !! "pdf_files"))))
          end) = false ->
  length (List.filter f (trace (get_response E (PDict d) w).2))
  = length (List.filter f (trace w)).
Proof.
  intros Hup Hnode Hcomplete Hq Ht Hflag.
  rewrite (get_response_run E d w question Hq Ht).
  assert (preserves (counts f (length (List.filter f (trace w))))
            (let* result :=
               rag_graph E
                 (initial_state question (default (PList []) (d !! "pdf_files"))
                    (match d !! "use_s3" with
                     | Some supplied => supplied
                     | None => PBool (negb (truthy (default (PList [])
                                                      (d !! "pdf_files"))))
                     end)) in
             let* response := getitem result "response" in
             ret (200, success_body response))) as H.
  { apply preserves_bind.
    - apply counts_rag_graph_flag_off; assumption.
    - intros result. apply preserves_bind; [apply counts_getitem | intros r].
      apply preserves_ret. }
  apply (H w). reflexivity.
Qed.



(** X7. Importing the module creates the snapshot directory, and a
    request, whatever its body and outcome, never removes it: a
    temporary directory cannot carry its name while it exists. *)
Theorem snapshot_directory_survives (E : Env) (data : pyval) (w : World) :
  has_storage E (startup E w).2
  /\ (has_storage E w -> has_storage E (get_response E data w).2).
Proof.
  split; [apply startup_has_storage | apply has_storage_get_response].
Qed.

Lemma snapshot_directory_survives_witness :
  has_storage Lab.env
    (get_response Lab.env (PDict Lab.broken_request) Lab.fresh).2.
Proof.
  apply (proj2 (snapshot_directory_survives Lab.env (PDict Lab.broken_request)
                  Lab.fresh)).
  eexists. reflexivity.
Defined.

(** ** Temporary directories do not leak *)

Lemma mkdtemp_Raise (E : Env) (w : World) (e : exn) (w1 : World) :
  mkdtemp E w = (Raise e, w1) -> w1 = w.
Proof.
  unfold mkdtemp. destruct (tmp_candidate E (tmp_counter w)) as [d|].
  - destruct (dirs w !! d); [| discriminate]. by intros [= _ <-].
  - by intros [= _ <-].
Qed.

Section SameOutside.

Context (E : Env) (dir : string) (base : gmap string directory).

Lemma same_outside_insert (w : World) (files : directory) :
  same_outside dir base w ->
  same_outside dir base (set_dirs (<[dir := files]> (dirs w)) w).
Proof. unfold same_outside. cbn. intros H. by rewrite delete_insert_eq. Qed.

Lemma same_outside_emit (ev : Event) : preserves (same_outside dir base) (emit ev).
Proof. intros w Hw. exact Hw. Qed.

Lemma same_outside_open_wb name :
  preserves (same_outside dir base) (open_wb E dir name).
Proof.
  unfold open_wb. apply preserves_bind; [apply same_outside_emit | intros _].
  apply preserves_bind; [apply preserves_lift | intros _].
  destruct (plain_name name); [| apply preserves_ret].
  intros w Hw. destruct (dirs w !! dir); [| exact Hw].
  by apply same_outside_insert.
Qed.

Lemma same_outside_write_file name data :
  preserves (same_outside dir base) (write_file E dir name data).
Proof.
  unfold write_file. apply preserves_bind; [apply same_outside_emit | intros _].
  apply preserves_bind; [apply preserves_lift | intros _].
  destruct (plain_name name); [| apply preserves_ret].
  intros w Hw. destruct (dirs w !! dir); [| exact Hw].
  by apply same_outside_insert.
Qed.

Lemma same_outside_iterdir d : preserves (same_outside dir base) (iterdir d).
Proof. intros w Hw. unfold iterdir. destruct (dirs w !! d); exact Hw. Qed.

#[local] Hint Resolve same_outside_emit same_outside_open_wb
  same_outside_write_file same_outside_iterdir : keeps.

Lemma same_outside_write_pdfs pdfs :
  preserves (same_outside dir base) (write_pdfs E dir pdfs).
Proof.
  induction pdfs as [|pdf rest IH]; cbn [write_pdfs]; auto 20 with keeps.
Qed.

#[local] Hint Resolve same_outside_write_pdfs : keeps.

Lemma same_outside_extract pdf_files :
  preserves (same_outside dir base) (extract_and_index E dir pdf_files).
Proof. unfold extract_and_index. auto 20 with keeps. Qed.

End SameOutside.

(** What [build_pdf_index] can leave behind: nothing, or the temporary
    directory whose removal was refused. *)
Lemma build_pdf_index_dirs_cases (E : Env) (pdf_files : pyval) (w : World) :
  dirs (build_pdf_index E pdf_files w).2 = dirs w
  \/ exists tmp_dir,
       rmtree_ok E tmp_dir = false
       /\ dirs w !! tmp_dir = None
       /\ delete tmp_dir (dirs (build_pdf_index E pdf_files w).2) = dirs w.
Proof.
  unfold build_pdf_index. unfold bind at 1. unfold lift.
  destruct (py_len pdf_files) as [n|e]; [| by left].
  unfold bind. destruct (mkdtemp E w) as [[tmp_dir|e] w1] eqn:Hmk.
  2:{ apply mkdtemp_Raise in Hmk as ->. by left. }
  destruct (extract_and_index E tmp_dir pdf_files w1) as [outcome w2] eqn:Hbody.
  rewrite (try_finally_rmtree E _ tmp_dir w1 outcome w2 Hbody).
  pose proof (same_outside_extract E tmp_dir (dirs w1) pdf_files w1 eq_refl)
    as Hsame.
  rewrite Hbody in Hsame. unfold same_outside in Hsame. cbn [snd] in Hsame.
  apply mkdtemp_Ok in Hmk as [Hfresh ->]. cbn [dirs] in Hsame.
  rewrite (delete_insert_id _ _ _ Hfresh) in Hsame.
  destruct (rmtree_ok E tmp_dir) eqn:Hrm; cbn [snd dirs set_dirs emit_in].
  - left. exact Hsame.
  - right. exists tmp_dir. repeat split; assumption.
Qed.



Section RequestFrame.

Context (E : Env) (base : gmap string directory).
Hypothesis Hrm : forall dir, rmtree_ok E dir = true.

Lemma frame_emit (ev : Event) :
  preserves (same_outside (STORAGE_DIR E) base) (emit ev).
Proof. intros w Hw. exact Hw. Qed.

Lemma frame_build_pdf_index pdf_files :
  preserves (same_outside (STORAGE_DIR E) base) (build_pdf_index E pdf_files).
Proof.
  intros w Hw. unfold same_outside in *.
  destruct (build_pdf_index_dirs_cases E pdf_files w)
    as [Hsame | (tmp_dir & Hrefused & _)].
  - by rewrite Hsame.
  - rewrite Hrm in Hrefused. discriminate Hrefused.
Qed.

Lemma frame_get_s3_index :
  preserves (same_outside (STORAGE_DIR E) base) (get_s3_index E).
Proof.
  unfold get_s3_index.
  apply preserves_bind; [apply same_outside_iterdir | intros entries].
  destruct (negb _).
  - apply preserves_bind; [apply frame_emit | intros _]. apply preserves_lift.
  - apply preserves_bind; [apply frame_emit | intros _].
    apply preserves_bind; [apply preserves_lift | intros documents].
    apply preserves_bind; [apply frame_emit | intros _].
    apply preserves_bind; [apply preserves_lift | intros index].
    apply preserves_bind; [apply frame_emit | intros _].
    apply preserves_bind; [apply preserves_lift | intros files].
    apply preserves_bind; [| intros _; apply preserves_ret].
    intros w Hw. by apply same_outside_insert.
Qed.

#[local] Hint Resolve frame_emit frame_build_pdf_index frame_get_s3_index
  : keeps.

Lemma frame_rag_graph input :
  preserves (same_outside (STORAGE_DIR E) base) (rag_graph E input).
Proof.
  unfold rag_graph, run_node, retrieve, retrieve_uploads, retrieve_s3,
    generate_answer.
  auto 40 with keeps.
Qed.

Lemma frame_get_response data :
  preserves (same_outside (STORAGE_DIR E) base) (get_response E data).
Proof.
  pose proof frame_rag_graph. unfold get_response. auto 20 with keeps.
Qed.

End RequestFrame.



(** ** What the upload index is built from *)

Lemma mkdtemp_run (E : Env) (w : World) (tmp_dir : string) :
  tmp_candidate E (tmp_counter w) = Ok tmp_dir ->
  dirs w !! tmp_dir = None ->
  mkdtemp E w
  = (Ok tmp_dir,
     mkWorld (<[tmp_dir := ∅]> (dirs w)) (S (tmp_counter w))
             (trace w ++ [EvMkdtemp tmp_dir])).
Proof. intros Hc Hf. unfold mkdtemp. rewrite Hc, Hf. reflexivity. Qed.

Lemma upload_files_cons (entry : string * bytes) rest (files : directory) :
  upload_files (entry :: rest) files
  = upload_files rest (<[entry.1 := entry.2]> files).
Proof. reflexivity. Qed.

Lemma decode_upload_Some (E : Env) (pdf : pyval) (entry : string * bytes) :
  decode_upload E pdf = Some entry ->
  exists file data,
    pdf = PDict file
    /\ file !! "name" = Some (PStr entry.1)
    /\ file !! "data" = Some data
    /\ b64decode E data = Ok entry.2.
Proof.
  unfold decode_upload. destruct pdf as [| | | | |file]; try discriminate.
  destruct (file !! "name") as [[| | |name| |]|] eqn:Hn; try discriminate.
  destruct (file !! "data") as [data|] eqn:Hdata; try discriminate.
  destruct (b64decode E data) as [decoded|] eqn:Hd; try discriminate.
  intros [= <-]. exists file, data. repeat split; assumption || reflexivity.
Qed.

(** The loop over well-formed uploads writes each decoded content under
    its name. *)
Lemma write_pdfs_decoded (E : Env) (tmp_dir : string) (pdfs : list pyval)
    (entries : list (string * bytes)) :
  Forall2 (fun pdf entry => decode_upload E pdf = Some entry) pdfs entries ->
  Forall (fun entry =>
            plain_name entry.1 = true
            /\ fs_open E (path_join tmp_dir entry.1) = Ok tt
            /\ fs_write E (path_join tmp_dir entry.1) entry.2 = Ok tt) entries ->
  forall (w : World) (files : directory),
    dirs w !! tmp_dir = Some files ->
    exists w',
      write_pdfs E tmp_dir pdfs w = (Ok tt, w')
      /\ dirs w' !! tmp_dir = Some (upload_files entries files).
Proof.
  induction 1 as [|pdf entry pdfs entries Hdec Hrest IH]; intros Hok w files Hdir.
  - exists w. split; [reflexivity | exact Hdir].
  - apply Forall_cons in Hok as [(Hplain & Hopen & Hwrite) Hok].
    apply decode_upload_Some in Hdec as (file & data & -> & Hname & Hdata & Hb).
    destruct entry as [name decoded]. cbn [fst snd] in *.
    set (w1 := set_dirs (<[tmp_dir := <[name := decoded]> files]> (dirs w))
                 (emit_in (EvWrite (path_join tmp_dir name) decoded)
                    (emit_in (EvOpen (path_join tmp_dir name)) w))).
    destruct (IH Hok w1 (<[name := decoded]> files)) as (w' & Hrun & Hfiles).
    { unfold w1. cbn. apply lookup_insert_eq. }
    exists w'. split; [| rewrite upload_files_cons; exact Hfiles].
    cbn [write_pdfs]. unfold bind at 1. unfold lift at 1. cbn [subscript].
    rewrite Hname. cbv iota beta.
    assert (open_wb E tmp_dir name w
            = (Ok tt, set_dirs (<[tmp_dir := <[name := []]> files]> (dirs w))
                        (emit_in (EvOpen (path_join tmp_dir name)) w))) as Hop.
    { unfold open_wb, bind, emit, lift. rewrite Hopen, Hplain. cbn.
      rewrite Hdir. reflexivity. }
    rewrite (bind_run_Ok _ _ _ _ _ Hop).
    unfold bind at 1. unfold lift at 1. cbn [subscript]. rewrite Hdata.
    unfold bind at 1. unfold lift at 1. rewrite Hb.
    assert (write_file E tmp_dir name decoded
              (set_dirs (<[tmp_dir := <[name := []]> files]> (dirs w))
                 (emit_in (EvOpen (path_join tmp_dir name)) w))
            = (Ok tt, w1)) as Hwr.
    { unfold write_file, bind, emit, lift. rewrite Hwrite, Hplain. cbn.
      rewrite lookup_insert_eq. unfold w1, set_dirs, emit_in. cbn.
      rewrite !insert_insert_eq. reflexivity. }
    rewrite (bind_run_Ok _ _ _ _ _ Hwr). exact Hrun.
Qed.

(** X10. For a list of well-formed uploads (each an object with a
    string name and decodable data) with plain file names, the index
    [build_pdf_index] returns is the one built from what the directory
    reader makes of exactly the decoded files, a later upload replacing
    an earlier one of the same name; an exception of the reader or of
    the index construction is the outcome. *)
Theorem build_pdf_index_indexes_decoded_uploads (E : Env) (pdfs : list pyval)
    (entries : list (string * bytes)) (w : World) (tmp_dir : string) :
  tmp_candidate E (tmp_counter w) = Ok tmp_dir ->
  dirs w !! tmp_dir = None ->
  Forall2 (fun pdf entry => decode_upload E pdf = Some entry) pdfs entries ->
  Forall (fun entry =>
            plain_name entry.1 = true
            /\ fs_open E (path_join tmp_dir entry.1) = Ok tt
            /\ fs_write E (path_join tmp_dir entry.1) entry.2 = Ok tt) entries ->
  (build_pdf_index E (PList pdfs) w).1
  = match dir_load_data E (upload_files entries ∅) with
    | Ok documents => from_documents E documents
    | Raise e => Raise e
    end.
Proof.
  intros Hcand Hfresh Hdec Hok.
  unfold build_pdf_index.
  rewrite (bind_run_Ok _ _ w (length pdfs) w) by reflexivity.
  rewrite (bind_run_Ok _ _ _ _ _ (mkdtemp_run E w tmp_dir Hcand Hfresh)).
  set (w1 := mkWorld _ _ _).
  destruct (write_pdfs_decoded E tmp_dir pdfs entries Hdec Hok w1 ∅)
    as (w2 & Hloop & Hfiles).
  { unfold w1. cbn. apply lookup_insert_eq. }
  assert (exists w3,
            extract_and_index E tmp_dir (PList pdfs) w1
            = (match dir_load_data E (upload_files entries ∅) with
               | Ok documents => from_documents E documents
               | Raise e => Raise e
               end, w3)) as (w3 & Hbody).
  { unfold extract_and_index.
    rewrite (bind_run_Ok _ _ w1 pdfs w1) by reflexivity.
    rewrite (bind_run_Ok _ _ _ _ _ Hloop).
    unfold bind, emit, iterdir, lift. cbn [dirs emit_in]. rewrite Hfiles.
    destruct (dir_load_data E _) as [documents|e]; [| by eexists].
    destruct (from_documents E documents); by eexists. }
  rewrite (try_finally_rmtree E _ tmp_dir w1 _ w3 Hbody). reflexivity.
Qed.

Lemma build_pdf_index_indexes_decoded_uploads_witness :
  (build_pdf_index Lab.env (PList [Lab.paper]) Lab.fresh).1
  = Ok [("paper.pdf", [x25; x50; x44; x46; x2d; x31])].
Proof.
  rewrite (build_pdf_index_indexes_decoded_uploads Lab.env [Lab.paper]
             [("paper.pdf", [x25; x50; x44; x46; x2d; x31])]
             Lab.fresh "/tmp/tmp0" eq_refl eq_refl).
  - vm_compute. reflexivity.
  - repeat constructor.
  - repeat constructor.
Defined.

(** ** Uploads that are not what the loop expects *)

Lemma plain_name_absolute (rest : string) :
  plain_name (String "/"%char rest) = false.
Proof. reflexivity. Qed.

Lemma path_join_absolute (dir rest : string) :
  path_join dir (String "/"%char rest) = String "/"%char rest.
Proof. reflexivity. Qed.



(** The outcome and the trace of [build_pdf_index] when the loop raises
    right after the directory was created and [opened] were emitted. *)
Lemma build_pdf_index_loop_raises (E : Env) (pdf_files : pyval) (n : nat)
    (pdfs : list pyval) (w : World) (tmp_dir : string) (e : exn)
    (opened : list Event) :
  py_len pdf_files = Ok n ->
  py_iter pdf_files = Ok pdfs ->
  tmp_candidate E (tmp_counter w) = Ok tmp_dir ->
  dirs w !! tmp_dir = None ->
  (forall w1,
      dirs w1 !! tmp_dir = Some ∅ ->
      exists w2,
        write_pdfs E tmp_dir pdfs w1 = (Raise e, w2)
        /\ trace w2 = (trace w1 ++ opened)%list) ->
  (build_pdf_index E pdf_files w).1 = Raise e
  /\ trace (build_pdf_index E pdf_files w).2
     = (trace w ++ [EvMkdtemp tmp_dir] ++ opened ++ [EvRmtree tmp_dir])%list.
Proof.
  intros Hlen Hiter Hcand Hfresh Hloop.
  unfold build_pdf_index.
  rewrite (bind_run_Ok _ _ w n w) by (unfold lift; by rewrite Hlen).
  rewrite (bind_run_Ok _ _ _ _ _ (mkdtemp_run E w tmp_dir Hcand Hfresh)).
  set (w1 := mkWorld _ _ _).
  destruct (Hloop w1) as (w2 & Hrun & Htrace).
  { unfold w1. cbn. apply lookup_insert_eq. }
  assert (extract_and_index E tmp_dir pdf_files w1 = (Raise e, w2)) as Hbody.
  { unfold extract_and_index.
    rewrite (bind_run_Ok _ _ w1 pdfs w1) by (unfold lift; by rewrite Hiter).
    apply bind_run_Raise, Hrun. }
  rewrite (try_finally_rmtree E _ tmp_dir w1 _ w2 Hbody).
  split; [reflexivity |]. cbn [snd].
  destruct (rmtree_ok E tmp_dir); cbn [trace set_dirs emit_in];
    rewrite Htrace; unfold w1; cbn [trace]; rewrite <- !app_assoc; reflexivity.
Qed.

(** X12. An upload entry without a [name] makes [build_pdf_index]
    raise [KeyError("name")] before any file is opened; an entry with a
    name but without [data] makes it raise [KeyError("data")] after the
    file has been opened.  Either way the removal of the temporary
    directory is the last call. *)
Theorem build_pdf_index_entry_missing_key (E : Env) (file : gmap string pyval)
    (rest : list pyval) (w : World) (tmp_dir : string) :
  tmp_candidate E (tmp_counter w) = Ok tmp_dir ->
  dirs w !! tmp_dir = None ->
  (file !! "name" = None ->
   (build_pdf_index E (PList (PDict file :: rest)) w).1 = Raise (KeyError "name")
   /\ trace (build_pdf_index E (PList (PDict file :: rest)) w).2
      = (trace w ++ [EvMkdtemp tmp_dir; EvRmtree tmp_dir])%list)
  /\ (forall name,
        file !! "name" = Some (PStr name) ->
        file !! "data" = None ->
        fs_open E (path_join tmp_dir name) = Ok tt ->
        (build_pdf_index E (PList (PDict file :: rest)) w).1
        = Raise (KeyError "data")
        /\ trace (build_pdf_index E (PList (PDict file :: rest)) w).2
           = (trace w ++ [EvMkdtemp tmp_dir; EvOpen (path_join tmp_dir name);
                          EvRmtree tmp_dir])%list).
Proof.
  intros Hcand Hfresh. split.
  - intros Hname.
    apply (build_pdf_index_loop_raises E (PList (PDict file :: rest)) _ _ w
             tmp_dir _ [] eq_refl eq_refl Hcand Hfresh).
    intros w1 _. exists w1. split; [| by rewrite app_nil_r].
    cbn [write_pdfs]. unfold bind, lift. cbn [subscript]. by rewrite Hname.
  - intros name Hname Hdata Hopen.
    apply (build_pdf_index_loop_raises E (PList (PDict file :: rest)) _ _ w
             tmp_dir _ [EvOpen (path_join tmp_dir name)] eq_refl eq_refl
             Hcand Hfresh).
    intros w1 Hdir.
    cbn [write_pdfs]. unfold bind at 1. unfold lift at 1. cbn [subscript].
    rewrite Hname. cbv iota beta.
    unfold open_wb, bind, emit, lift. rewrite Hopen. cbn [subscript].
    rewrite Hdata.
    destruct (plain_name name).
    + cbn [dirs emit_in]. rewrite Hdir. eexists. split; reflexivity.
    + eexists. split; reflexivity.
Qed.

Lemma build_pdf_index_entry_missing_key_witness :
  (build_pdf_index Lab.env (PList [PDict {[ "data" := PStr "JVBERi0x" ]}])
     Lab.fresh).1 = Raise (KeyError "name")
  /\ trace (build_pdf_index Lab.env (PList [PDict {[ "data" := PStr "JVBERi0x" ]}])
              Lab.fresh).2
     = [EvMkdtemp "/tmp/tmp0"; EvRmtree "/tmp/tmp0"].
Proof.
  apply (proj1 (build_pdf_index_entry_missing_key Lab.env
                  {[ "data" := PStr "JVBERi0x" ]} [] Lab.fresh "/tmp/tmp0"
                  eq_refl eq_refl)).
  reflexivity.
Defined.

Lemma write_pdfs_string_item (E : Env) (tmp_dir : string) (s : string)
    (rest : list pyval) (w : World) :
  write_pdfs E tmp_dir (PStr s :: rest) w = (Raise TypeError, w).
Proof. reflexivity. Qed.

(** A truthy value that is not a list makes [build_pdf_index] raise
    [TypeError]: it has no length, or iterating it yields strings. *)
Lemma build_pdf_index_not_a_list (E : Env) (v : pyval) (w : World)
    (tmp_dir : string) :
  truthy v = true ->
  (forall l, v <> PList l) ->
  tmp_candidate E (tmp_counter w) = Ok tmp_dir ->
  dirs w !! tmp_dir = None ->
  (build_pdf_index E v w).1 = Raise TypeError.
Proof.
  intros Ht Hnot Hcand Hfresh.
  destruct v as [|b|z|s|l|m]; try reflexivity.
  - destruct s as [|c s]; [discriminate Ht |].
    apply (build_pdf_index_loop_raises E (PStr (String c s)) _ _ w tmp_dir _ []
             eq_refl eq_refl Hcand Hfresh).
    intros w1 _. exists w1. split; [reflexivity | by rewrite app_nil_r].
  - destruct (Hnot l). reflexivity.
  - destruct (map_to_list m) as [|[k x] items] eqn:Hitems.
    + apply map_to_list_empty_iff in Hitems as ->. discriminate Ht.
    + refine (proj1 (build_pdf_index_loop_raises E (PDict m) _
                       (PStr k :: (PStr <$> items.*1)) w tmp_dir TypeError []
                       eq_refl _ Hcand Hfresh _)).
      * cbn [py_iter]. rewrite Hitems. reflexivity.
      * intros w1 _. exists w1. split; [reflexivity | by rewrite app_nil_r].
Qed.

(** X13. When [pdf_files] is truthy but not a JSON array (a number,
    [true], a string or an object), the request fails with [TypeError]
    in the retrieval stage and the language model is not called. *)
Theorem get_response_pdf_files_not_a_list (E : Env) (d : gmap string pyval)
    (w : World) (question v : pyval) (tmp_dir : string) :
  d !! "question" = Some question ->
  truthy question = true ->
  d !! "pdf_files" = Some v ->
  truthy v = true ->
  (forall l, v <> PList l) ->
  tmp_candidate E (tmp_counter w) = Ok tmp_dir ->
  dirs w !! tmp_dir = None ->
  (get_response E (PDict d) w).1 = Raise TypeError
  /\ completions (trace (get_response E (PDict d) w).2) = completions (trace w).
Proof.
  intros Hq Htq Hp Htv Hnot Hcand Hfresh.
  pose proof (build_pdf_index_not_a_list E v (emit_in (EvNode "retrieve") w)
                tmp_dir Htv Hnot Hcand Hfresh) as Hbuild.
  pose proof (counts_build_pdf_index E is_completion
                (completions (trace w)) upload_event_not_completion v
                (emit_in (EvNode "retrieve") w)) as Hquiet.
  destruct (build_pdf_index E v (emit_in (EvNode "retrieve") w))
    as [outcome w'] eqn:Hrun.
  cbn [fst snd] in *. subst outcome.
  rewrite (get_response_upload_failure E d question v w TypeError w'
             Hq Htq Hp Htv Hrun).
  split; [reflexivity |]. cbn [snd]. apply Hquiet.
  unfold counts. fold (completions (trace (emit_in (EvNode "retrieve") w))).
  rewrite completions_emit_in. cbn. lia.
Qed.

Lemma get_response_pdf_files_not_a_list_witness :
  (get_response Lab.env
     (PDict {[ "question" := PStr "Summarize this";
               "pdf_files" := PStr "JVBERi0x" ]}) Lab.fresh).1
  = Raise TypeError
  /\ completions
       (trace (get_response Lab.env
                 (PDict {[ "question" := PStr "Summarize this";
                           "pdf_files" := PStr "JVBERi0x" ]}) Lab.fresh).2)
     = 0.
Proof.
  apply (get_response_pdf_files_not_a_list Lab.env
           {[ "question" := PStr "Summarize this";
              "pdf_files" := PStr "JVBERi0x" ]}
           Lab.fresh (PStr "Summarize this") (PStr "JVBERi0x") "/tmp/tmp0");
    try reflexivity.
  intros l. discriminate.
Defined.

(** ** The persistent index across calls *)

Lemma get_s3_index_built (E : Env) (w : World) documents index files :
  dirs w !! STORAGE_DIR E = Some ∅ ->
  s3_load_data E = Ok documents ->
  from_documents E documents = Ok index ->
  persist_files E index = Ok files ->
  get_s3_index E w
  = (Ok index,
     mkWorld (<[STORAGE_DIR E := files]> (dirs w)) (tmp_counter w)
             (trace w ++ [EvS3Fetch; EvBuildIndex; EvPersist (STORAGE_DIR E)])).
Proof.
  intros Hdir Hdocs Hidx Hfiles. rewrite (get_s3_index_build E w Hdir).
  unfold bind, lift, emit, ret. rewrite Hdocs. cbn. rewrite Hidx. cbn.
  rewrite Hfiles. cbn. unfold set_dirs, emit_in. cbn.
  rewrite (right_id_L ∅ (∪)). rewrite <- !app_assoc. reflexivity.
Qed.

(** X14. Build once, then reuse: after a call of [get_s3_index] that
    built the index from object storage and persisted at least one
    file, the next call deserializes those files and does not fetch
    again; the two calls together made exactly one fetch. *)
Theorem get_s3_index_second_call_loads (E : Env) (w : World)
    (documents : list (Document E)) (index : Index E) (files : directory) :
  dirs w !! STORAGE_DIR E = Some ∅ ->
  s3_load_data E = Ok documents ->
  from_documents E documents = Ok index ->
  persist_files E index = Ok files ->
  files <> ∅ ->
  (get_s3_index E w).1 = Ok index
  /\ get_s3_index E (get_s3_index E w).2
     = (load_index_from_storage E files,
        emit_in (EvLoadSnapshot (STORAGE_DIR E)) (get_s3_index E w).2)
  /\ fetches (trace (get_s3_index E (get_s3_index E w).2).2)
     = fetches (trace w) + 1.
Proof.
  intros Hdir Hdocs Hidx Hfiles Hne.
  rewrite (get_s3_index_built E w documents index files Hdir Hdocs Hidx Hfiles).
  cbn [fst snd]. split; [reflexivity |].
  set (w1 := mkWorld _ _ _).
  assert (dirs w1 !! STORAGE_DIR E = Some files) as Hdir1
    by (unfold w1; cbn; apply lookup_insert_eq).
  rewrite (get_s3_index_load E w1 files Hdir1 Hne). split; [reflexivity |].
  cbn [snd trace emit_in]. rewrite fetches_snoc. unfold w1. cbn [trace is_fetch].
  unfold fetches. rewrite List.filter_app, length_app. cbn. lia.
Qed.

Lemma get_s3_index_second_call_loads_witness :
  (get_s3_index Lab.env Lab.fresh).1 = Ok [("corpus.pdf", [])]
  /\ (get_s3_index Lab.env (get_s3_index Lab.env Lab.fresh).2).1
     = Ok [("snapshot.pdf", [])]
  /\ fetches (trace (get_s3_index Lab.env (get_s3_index Lab.env Lab.fresh).2).2)
     = 1.
Proof.
  destruct (get_s3_index_second_call_loads Lab.env Lab.fresh
              [("corpus.pdf", [])] [("corpus.pdf", [])]
              {[ "docstore.json" := []; "index_store.json" := [] ]}
              eq_refl eq_refl eq_refl eq_refl) as (Hfirst & Hsecond & Hcount).
  { apply insert_non_empty. }
  split; [exact Hfirst |]. split; [| exact Hcount].
  rewrite Hsecond. reflexivity.
Defined.

(** X15. When the fetch from object storage or the construction of the
    index fails, [get_s3_index] raises that exception, nothing has been
    persisted, and the snapshot directory is still empty: the next call
    fetches again. *)
Theorem get_s3_index_failure_persists_nothing (E : Env) (w : World) (e : exn) :
  dirs w !! STORAGE_DIR E = Some ∅ ->
  s3_load_data E = Raise e
  \/ (exists documents,
        s3_load_data E = Ok documents /\ from_documents E documents = Raise e) ->
  (get_s3_index E w).1 = Raise e
  /\ dirs (get_s3_index E w).2 = dirs w
  /\ (exists t, trace (get_s3_index E (get_s3_index E w).2).2
                = (trace (get_s3_index E w).2 ++ EvS3Fetch :: t)%list).
Proof.
  intros Hdir Hfail.
  assert (exists w1, get_s3_index E w = (Raise e, w1) /\ dirs w1 = dirs w)
    as (w1 & Hrun & Hsame).
  { rewrite (get_s3_index_build E w Hdir). unfold bind, lift, emit, ret.
    destruct Hfail as [Hfetch | (documents & Hfetch & Hbuild)].
    - rewrite Hfetch. by eexists.
    - rewrite Hfetch. cbn. rewrite Hbuild. by eexists. }
  rewrite Hrun. cbn [fst snd]. split; [reflexivity |]. split; [exact Hsame |].
  assert (dirs w1 !! STORAGE_DIR E = Some ∅) as Hdir1 by (by rewrite Hsame).
  rewrite (get_s3_index_build E w1 Hdir1). unfold bind, lift, emit, ret.
  destruct Hfail as [Hfetch | (documents & Hfetch & Hbuild)].
  - rewrite Hfetch. by exists [].
  - rewrite Hfetch. cbn. rewrite Hbuild. exists [EvBuildIndex].
    cbn. by rewrite <- app_assoc.
Qed.

(** X16. If the snapshot directory does not exist, [get_s3_index]
    raises the error of listing it; it neither fetches object storage
    nor creates the directory. *)
Theorem get_s3_index_missing_directory (E : Env) (w : World) :
  dirs w !! STORAGE_DIR E = None ->
  get_s3_index E w = (Raise (OSError "FileNotFoundError"), w).
Proof.
  intros Hdir. unfold get_s3_index, bind, iterdir. rewrite Hdir. reflexivity.
Qed.

Lemma get_s3_index_missing_directory_witness :
  get_s3_index Lab.env (mkWorld ∅ 0 [])
  = (Raise (OSError "FileNotFoundError"), mkWorld ∅ 0 []).
Proof.
  apply (get_s3_index_missing_directory Lab.env (mkWorld ∅ 0 [])).
  reflexivity.
Defined.

Lemma get_s3_index_failure_persists_nothing_witness :
  (get_s3_index Lab.offline Lab.fresh).1 = Raise (ServiceError "object storage")
  /\ dirs (get_s3_index Lab.offline Lab.fresh).2 = dirs Lab.fresh.
Proof.
  destruct (get_s3_index_failure_persists_nothing Lab.offline Lab.fresh
              (ServiceError "object storage") eq_refl)
    as (Hraise & Hdirs & _).
  - left. reflexivity.
  - split; assumption.
Defined.

(** ** More on the two nodes and their composition *)

Lemma first_char_differs (a b : string) (x y : ascii) :
  x <> y -> String x a <> String y b.
Proof. intros Hne H. injection H as H _. contradiction. Qed.

Lemma uploaded_fragment_not_sentinel (body : string) :
  UPLOADED_LABEL +:+ body <> SENTINEL.
Proof. apply first_char_differs. discriminate. Qed.

Lemma s3_fragment_not_sentinel (body : string) :
  S3_LABEL +:+ body <> SENTINEL.
Proof. apply first_char_differs. discriminate. Qed.

(** X17. The context [retrieve] returns is the sentinel exactly when
    no source applied: uploads falsy or absent and the flag falsy.  As
    soon as one source applies the context starts with a label. *)
Theorem retrieve_sentinel_iff_no_source (E : Env) (state : gmap string pyval)
    (w w' : World) (update : gmap string pyval) :
  retrieve E state w = (Ok update, w') ->
  update = {[ "context" := PStr "No context available." ]}
  <-> truthy (default PNone (state !! "pdf_files")) = false
      /\ truthy (default (PBool true) (state !! "use_s3")) = false.
Proof.
  intros H. split.
  - intros ->.
    destruct (truthy (default PNone (state !! "pdf_files"))) eqn:Hpdf.
    + apply retrieve_Ok in H as (c1 & w1 & c2 & Hup & Hsn & Heq).
      apply (retrieve_uploads_Ok E _ _ _ _ _ Hpdf) in Hup
        as (? & ? & ? & ? & ? & r1 & _ & _ & _ & _ & _ & -> & _).
      apply context_update_inj in Heq. exfalso.
      destruct (truthy (default (PBool true) (state !! "use_s3"))) eqn:Hs3.
      * apply (retrieve_s3_Ok E _ _ _ _ _ Hs3) in Hsn
          as (? & ? & ? & ? & r2 & _ & _ & _ & _ & -> & _).
        cbn [app] in Heq. rewrite compose_two, append_assoc in Heq.
        symmetry in Heq. by apply uploaded_fragment_not_sentinel in Heq.
      * rewrite (retrieve_s3_skip E _ _ _ Hs3) in Hsn. injection Hsn as <- _.
        symmetry in Heq. by apply uploaded_fragment_not_sentinel in Heq.
    + split; [reflexivity |].
      destruct (truthy (default (PBool true) (state !! "use_s3"))) eqn:Hs3;
        [| reflexivity].
      apply retrieve_Ok in H as (c1 & w1 & c2 & Hup & Hsn & Heq).
      rewrite (retrieve_uploads_skip E _ _ _ Hpdf) in Hup.
      injection Hup as <- <-.
      apply (retrieve_s3_Ok E _ _ _ _ _ Hs3) in Hsn
        as (? & ? & ? & ? & r2 & _ & _ & _ & _ & -> & _).
      apply context_update_inj in Heq. exfalso.
      symmetry in Heq. by apply s3_fragment_not_sentinel in Heq.
  - intros [Hpdf Hs3].
    rewrite (retrieve_no_source E state w Hpdf Hs3) in H.
    by injection H as <- _.
Qed.

Lemma retrieve_sentinel_iff_no_source_witness :
  exists update w',
    retrieve Lab.env Lab.corpus_only Lab.seeded = (Ok update, w')
    /\ update <> {[ "context" := PStr "No context available." ]}.
Proof.
  assert (exists update w',
            retrieve Lab.env Lab.corpus_only Lab.seeded = (Ok update, w'))
    as (update & w' & Hrun).
  { eexists _, _. vm_compute. reflexivity. }
  exists update, w'. split; [exact Hrun |].
  intros Heq.
  apply (retrieve_sentinel_iff_no_source Lab.env Lab.corpus_only Lab.seeded
           w' update Hrun) in Heq as [_ Hflag].
  discriminate Hflag.
Defined.

(** X18. Without uploads and with the flag truthy, or absent from the
    state, the context is the "S3 Documents" fragment alone: the label
    line followed by what the query on the persistent index rendered,
    with no separator before or after; the one query is the last
    call. *)
Theorem retrieve_corpus_only (E : Env) (state : gmap string pyval)
    (w w' : World) (update : gmap string pyval) :
  truthy (default PNone (state !! "pdf_files")) = false ->
  truthy (default (PBool true) (state !! "use_s3")) = true ->
  retrieve E state w = (Ok update, w') ->
  exists s3_index w1 engine question result,
    get_s3_index E w = (Ok s3_index, w1)
    /\ as_query_engine E s3_index 3 = Ok engine
    /\ state !! "question" = Some question
    /\ query E engine question = Ok result
    /\ update = {[ "context" := PStr (S3_LABEL +:+ result) ]}
    /\ w' = emit_in (EvQuery question) w1.
Proof.
  intros Hpdf Hs3 H.
  apply retrieve_Ok in H as (c1 & w1 & c2 & Hup & Hsn & ->).
  rewrite (retrieve_uploads_skip E _ _ _ Hpdf) in Hup. injection Hup as <- <-.
  apply (retrieve_s3_Ok E _ _ _ _ _ Hs3) in Hsn
    as (idx & w2 & qe & q & r & Hget & Hqe & Hq & Hr & -> & ->).
  exists idx, w2, qe, q, r. repeat (split; [assumption |]).
  split; reflexivity.
Qed.

Lemma retrieve_corpus_only_witness :
  exists update w',
    retrieve Lab.env ({[ "question" := PStr "What is RAG?" ]} : gmap string pyval)
      Lab.seeded = (Ok update, w')
    /\ exists s3_index w1 engine question result,
        get_s3_index Lab.env Lab.seeded = (Ok s3_index, w1)
        /\ as_query_engine Lab.env s3_index 3 = Ok engine
        /\ ({[ "question" := PStr "What is RAG?" ]} : gmap string pyval)
             !! "question" = Some question
        /\ query Lab.env engine question = Ok result
        /\ update = {[ "context" := PStr (S3_LABEL +:+ result) ]}
        /\ w' = emit_in (EvQuery question) w1.
Proof.
  eexists _, _. split.
  - vm_compute. reflexivity.
  - eapply (retrieve_corpus_only Lab.env
              ({[ "question" := PStr "What is RAG?" ]} : gmap string pyval)
              Lab.seeded).
    + vm_compute. reflexivity.
    + vm_compute. reflexivity.
    + vm_compute. reflexivity.
Defined.

(** [generate_answer] reads the context before the question: a
    state without [context] raises [KeyError("context")], one with a
    context but without [question] raises [KeyError("question")], and in
    both cases the language model is not called. *)
Theorem generate_answer_missing_key (E : Env) (state : gmap string pyval)
    (w : World) :
  (state !! "context" = None ->
   generate_answer E state w = (Raise (KeyError "context"), w))
  /\ (forall context,
        state !! "context" = Some context ->
        state !! "question" = None ->
        generate_answer E state w = (Raise (KeyError "question"), w)).
Proof.
  split.
  - intros Hc. unfold generate_answer, bind, getitem. by rewrite Hc.
  - intros c Hc Hq. unfold generate_answer, bind, getitem. by rewrite Hc, Hq.
Qed.

Lemma generate_answer_missing_key_witness :
  generate_answer Lab.env
    ({[ "question" := PStr "What is RAG?" ]} : gmap string pyval) Lab.fresh
  = (Raise (KeyError "context"), Lab.fresh)
  /\ generate_answer Lab.env
       ({[ "context" := PStr "No context available." ]} : gmap string pyval)
       Lab.fresh
     = (Raise (KeyError "question"), Lab.fresh).
Proof.
  split.
  - apply (proj1 (generate_answer_missing_key Lab.env
                    ({[ "question" := PStr "What is RAG?" ]}
                     : gmap string pyval) Lab.fresh)).
    vm_compute. reflexivity.
  - apply (proj2 (generate_answer_missing_key Lab.env
                    ({[ "context" := PStr "No context available." ]}
                     : gmap string pyval) Lab.fresh)
                 (PStr "No context available.")).
    + vm_compute. reflexivity.
    + vm_compute. reflexivity.
Defined.

(** X19. When the workflow returns, the final state is the input with
    [context] set to the non-empty context that retrieval composed and
    [response] set to the completion the language model gave for the
    prompt built from that context and the question of the input;
    no other key is added, removed or changed. *)
Theorem rag_graph_final_state (E : Env) (input final : gmap string pyval)
    (w w' : World) :
  rag_graph E input w = (Ok final, w') ->
  exists context question response,
    context <> ""
    /\ input !! "question" = Some question
    /\ complete E (build_prompt context (format_value E question)) = Ok response
    /\ final = <[ "response" := PStr response ]>
                 (<[ "context" := PStr context ]> input)
    /\ dom final = {[ "response" ]} ∪ ({[ "context" ]} ∪ dom input).
Proof.
  intros H. unfold rag_graph in H.
  apply bind_Ok in H as (mid & w1 & Hret & Hgen).
  unfold run_node in Hret, Hgen.
  apply bind_Ok in Hret as (? & w2 & _ & Hret).
  apply bind_Ok in Hret as (u1 & w3 & Hret & Hmid).
  apply ret_Ok in Hmid as [-> ->].
  apply bind_Ok in Hgen as (? & w4 & _ & Hgen).
  apply bind_Ok in Hgen as (u2 & w5 & Hgen & Hfin).
  apply ret_Ok in Hfin as [-> ->].
  apply retrieve_update_shape in Hret as (c & -> & Hne).
  apply generate_answer_inv in Hgen as (cv & q & r & Hc & Hq & Hr & -> & _).
  rewrite lookup_union_l' in Hc by (rewrite lookup_singleton_eq; by eexists).
  rewrite lookup_singleton_eq in Hc. injection Hc as <-.
  rewrite lookup_union_r in Hq by (by apply lookup_singleton_ne).
  cbn [format_value] in Hr.
  exists c, q, r. split; [exact Hne |]. split; [exact Hq |].
  split; [exact Hr |].
  rewrite <- !insert_union_singleton_l. split; [reflexivity |].
  by rewrite !dom_insert_L.
Qed.

Lemma rag_graph_final_state_witness :
  exists final w',
    rag_graph Lab.env Lab.corpus_only Lab.seeded = (Ok final, w')
    /\ exists context question response,
        context <> ""
        /\ Lab.corpus_only !! "question" = Some question
        /\ complete Lab.env (build_prompt context (format_value Lab.env question))
           = Ok response
        /\ final = <[ "response" := PStr response ]>
                     (<[ "context" := PStr context ]> Lab.corpus_only)
        /\ dom final = {[ "response" ]} ∪ ({[ "context" ]} ∪ dom Lab.corpus_only).
Proof.
  assert (exists final w',
            rag_graph Lab.env Lab.corpus_only Lab.seeded = (Ok final, w'))
    as (final & w' & Hrun).
  { eexists _, _. vm_compute. reflexivity. }
  exists final, w'. split; [exact Hrun |].
  exact (rag_graph_final_state Lab.env Lab.corpus_only final Lab.seeded w' Hrun).
Defined.

Lemma upload_event_not_node ev : upload_event ev = true -> is_node ev = false.
Proof. destruct ev; (reflexivity || discriminate). Qed.

Lemma snapshot_event_not_node ev : snapshot_event ev = true -> is_node ev = false.
Proof. destruct ev; (reflexivity || discriminate). Qed.

Lemma retrieve_no_node (E : Env) (state : gmap string pyval) (w : World) :
  node_entries (trace (retrieve E state w).2) = node_entries (trace w).
Proof.
  assert (preserves (counts is_node (node_entries (trace w)))
                    (retrieve E state)) as H.
  { unfold retrieve.
    apply preserves_bind;
      [apply counts_retrieve_uploads, upload_event_not_node | intros c1].
    apply preserves_bind;
      [apply counts_retrieve_s3, snapshot_event_not_node | intros c2].
    apply preserves_ret. }
  apply (H w). reflexivity.
Qed.


